(** * Diabetic patient monitor: trend classification, alerting, forecasting
      and reporting

    A shallow embedding of [DiabeticPatientMonitor] (src/Dia.py) and the
    properties of its monitoring core.

    Modelling conventions.
    - A finite Python float is the rational number it denotes ([Q]); the
      arithmetic of the monitor ([+], [-], [*], [/]) is exact on it.  Where a
      function can be handed a non-finite float, its argument has type
      [pyfloat], which adds the two infinities and NaN with the IEEE
      comparison rules.
    - The monitor object is a record [Monitor]; a method that mutates it is a
      state transformer in the monad [M].  The SQLite tables are lists of
      rows in insertion order.
    - [datetime.now()] and the standard normal deviate behind
      [random.normalvariate] are inputs of the operations.
    - Text built with f-strings is kept structured: a message is a
      constructor carrying the values the text is formatted from.
    - Console output and the SMTP delivery of [send_email_alert] are left
      out: no property below observes them. *)

From Stdlib Require Import ZArith QArith String List Bool Lia Lqa Sorted.
Import ListNotations.

Local Open Scope Q_scope.

(* ================================================================== *)
(** ** Numbers *)

Module PyNum.

(** [x < y] and [x > y] on finite floats. *)
Definition Qltb (x y : Q) : bool := negb (Qle_bool y x).
Definition Qgtb (x y : Q) : bool := Qltb y x.
(** [x >= y]. *)
Definition Qgeb (x y : Q) : bool := Qle_bool y x.

(** A Python float that may be non-finite. *)
Inductive pyfloat : Type :=
| Finite (q : Q)
| PosInf
| NegInf
| NaN.

Definition is_finite (x : pyfloat) : bool :=
  match x with Finite _ => true | _ => false end.

(** [x < t] for a float [x] and a finite [t]: every comparison with NaN is
    false. *)
Definition flt (x : pyfloat) (t : Q) : bool :=
  match x with
  | Finite q => Qltb q t
  | NegInf => true
  | PosInf => false
  | NaN => false
  end.

(** [x > t]. *)
Definition fgt (x : pyfloat) (t : Q) : bool :=
  match x with
  | Finite q => Qgtb q t
  | PosInf => true
  | NegInf => false
  | NaN => false
  end.

(** [min(a, b)] of two arguments: the first one unless the second is
    strictly smaller. *)
Definition py_min (a b : Q) : Q := if Qltb b a then b else a.

(** [max(a, b)]: the first one unless the second is strictly larger. *)
Definition py_max (a b : Q) : Q := if Qgtb b a then b else a.

(** Nearest integer, ties to the even one. *)
Definition round_half_even (q : Q) : Z :=
  let n := Qnum q in
  let d := Zpos (Qden q) in
  let f := (n / d)%Z in
  let r := (n mod d)%Z in
  match (2 * r ?= d)%Z with
  | Lt => f
  | Gt => (f + 1)%Z
  | Eq => if Z.even f then f else (f + 1)%Z
  end.

(** [round(x, 1)]. *)
Definition round1 (x : Q) : Q := round_half_even (x * 10) # 10.

(** [random.normalvariate(mu, sigma)] is [mu + z * sigma] for a standard
    normal deviate [z], here an input. *)
Definition normalvariate (z mu sigma : Q) : Q := mu + z * sigma.

Definition sumQ (l : list Q) : Q := fold_right Qplus 0 l.

(** [np.arange(start, stop)] with integer bounds. *)
Definition arange (start stop : Z) : list Q :=
  map (fun k => inject_Z (start + Z.of_nat k)) (seq 0 (Z.to_nat (stop - start))).

(** The slice [l[start:]]: a negative [start] counts from the end, and the
    bound is clipped to the list. *)
Definition slice_from {A : Type} (start : Z) (l : list A) : list A :=
  let len := Z.of_nat (length l) in
  let lo := if (start <? 0)%Z then Z.max 0 (len + start) else Z.min start len in
  skipn (Z.to_nat lo) l.

(** [needle in haystack] on strings. *)
Definition str_in (needle haystack : string) : bool :=
  match index 0 needle haystack with
  | Some _ => true
  | None => false
  end.

End PyNum.
Import PyNum.

(** A call either returns a value or raises. *)
Inductive exn : Type := ValueError.

Inductive pyresult (A : Type) : Type :=
| Ok (a : A)
| Raise (e : exn).
Arguments Ok {A} a.
Arguments Raise {A} e.

(* ================================================================== *)
(** ** Configuration *)

Record AlertThresholds : Type := {
  hypoglycemia : Q;
  hyperglycemia : Q;
  severe_hyperglycemia : Q;
  ketoacidosis_risk : Q;
  hypo_symptoms_severity : Q
}.

Record TargetRanges : Type := {
  fasting_glucose : string;
  postprandial_glucose : string;
  hba1c : string;
  blood_pressure : string
}.

Record EmailAlerts : Type := {
  enabled : bool;
  smtp_server : string;
  smtp_port : Z;
  sender_email : string;
  sender_password : string;
  recipient_emails : list string
}.

Record PredictionSettings : Type := {
  window_size : Z;
  forecast_hours : Z
}.

Record Config : Type := {
  alert_thresholds : AlertThresholds;
  target_ranges : TargetRanges;
  email_alerts : EmailAlerts;
  prediction_settings : PredictionSettings
}.

(** The configuration [load_config] returns when the file is missing. *)
Definition default_config : Config := {|
  alert_thresholds := {|
    hypoglycemia := 70;
    hyperglycemia := 180;
    severe_hyperglycemia := 250;
    ketoacidosis_risk := 1.5;
    hypo_symptoms_severity := 7 |};
  target_ranges := {|
    fasting_glucose := "80-130 mg/dL";
    postprandial_glucose := "80-180 mg/dL";
    hba1c := "<7%";
    blood_pressure := "<140/90 mmHg" |};
  email_alerts := {|
    enabled := false;
    smtp_server := "smtp.gmail.com";
    smtp_port := 587;
    sender_email := "";
    sender_password := "";
    recipient_emails := [] |};
  prediction_settings := {|
    window_size := 10;
    forecast_hours := 4 |}
|}.

(** The same configuration with another [forecast_hours]. *)
Definition with_forecast_hours (fh : Z) (c : Config) : Config := {|
  alert_thresholds := alert_thresholds c;
  target_ranges := target_ranges c;
  email_alerts := email_alerts c;
  prediction_settings := {|
    window_size := window_size (prediction_settings c);
    forecast_hours := fh |}
|}.

(** Two configurations that agree on everything but [forecast_hours]. *)
Definition differ_only_in_forecast_hours (c1 c2 : Config) : Prop :=
  alert_thresholds c1 = alert_thresholds c2 /\
  target_ranges c1 = target_ranges c2 /\
  email_alerts c1 = email_alerts c2 /\
  window_size (prediction_settings c1) = window_size (prediction_settings c2).

(* ================================================================== *)
(** ** Monitor state *)

(** The five trend marks: double up arrow, up arrow, right arrow, down
    arrow, double down arrow. *)
Inductive Trend : Type := StrongUp | Up | Stable | Down | StrongDown.

Inductive Severity : Type := high | medium.

(** The texts handed to [send_alert], by the f-string that builds them. *)
Inductive Message : Type :=
| HypoglycemiaDetected (glucose_value : pyfloat)
| SevereHyperglycemiaDetected (glucose_value : pyfloat)
| HyperglycemiaDetected (glucose_value : pyfloat)
| SevereHypoSymptoms (severity : Z)
| SevereHyperSymptoms (severity : Z).

(** A row of table [glucose_measurements]. *)
Record GlucoseRow : Type := {
  gm_timestamp : Z;
  gm_blood_glucose : Q;
  gm_measurement_context : string;
  gm_glucose_trend : Trend
}.

(** A row of table [alerts]. *)
Record AlertRow : Type := {
  al_timestamp : Z;
  al_alert_type : string;
  al_message : Message;
  al_severity : Severity
}.

Record Monitor : Type := {
  patient_name : string;
  diabetes_type : Z;
  config : Config;
  (* self.data *)
  data_timestamp : list Z;
  data_blood_glucose : list Q;
  data_glucose_trend : list Trend;
  data_hypo_symptoms : list Z;
  data_hyper_symptoms : list Z;
  (* the database *)
  glucose_measurements : list GlucoseRow;
  alerts : list AlertRow
}.

(** The monitor [__init__] builds, on an empty database. *)
Definition new_monitor (name : string) (dtype : Z) (c : Config) : Monitor := {|
  patient_name := name;
  diabetes_type := dtype;
  config := c;
  data_timestamp := [];
  data_blood_glucose := [];
  data_glucose_trend := [];
  data_hypo_symptoms := [];
  data_hyper_symptoms := [];
  glucose_measurements := [];
  alerts := []
|}.

Definition thresholds_of (s : Monitor) : AlertThresholds := alert_thresholds (config s).

Definition set_config (c : Config) (s : Monitor) : Monitor := {|
  patient_name := patient_name s;
  diabetes_type := diabetes_type s;
  config := c;
  data_timestamp := data_timestamp s;
  data_blood_glucose := data_blood_glucose s;
  data_glucose_trend := data_glucose_trend s;
  data_hypo_symptoms := data_hypo_symptoms s;
  data_hyper_symptoms := data_hyper_symptoms s;
  glucose_measurements := glucose_measurements s;
  alerts := alerts s
|}.

(** State transformers. *)
Definition M (A : Type) : Type := Monitor -> A * Monitor.

Definition ret {A : Type} (a : A) : M A := fun s => (a, s).

Definition bind {A B : Type} (m : M A) (k : A -> M B) : M B :=
  fun s => let (a, s') := m s in k a s'.

Definition get : M Monitor := fun s => (s, s).

Definition modify (f : Monitor -> Monitor) : M unit := fun s => (tt, f s).

Notation "x <- m ;; k" := (bind m (fun x => k))
  (at level 61, m at next level, right associativity).
Notation "m ;;; k" := (bind m (fun _ => k))
  (at level 61, right associativity).

(** [self.data['timestamp'].append], [..['blood_glucose'].append],
    [..['glucose_trend'].append]. *)
Definition append_measurement (t : Z) (v : Q) (tr : Trend) (s : Monitor) : Monitor := {|
  patient_name := patient_name s;
  diabetes_type := diabetes_type s;
  config := config s;
  data_timestamp := data_timestamp s ++ [t];
  data_blood_glucose := data_blood_glucose s ++ [v];
  data_glucose_trend := data_glucose_trend s ++ [tr];
  data_hypo_symptoms := data_hypo_symptoms s;
  data_hyper_symptoms := data_hyper_symptoms s;
  glucose_measurements := glucose_measurements s;
  alerts := alerts s
|}.

Definition append_hypo_symptoms (sev : Z) (s : Monitor) : Monitor := {|
  patient_name := patient_name s;
  diabetes_type := diabetes_type s;
  config := config s;
  data_timestamp := data_timestamp s;
  data_blood_glucose := data_blood_glucose s;
  data_glucose_trend := data_glucose_trend s;
  data_hypo_symptoms := data_hypo_symptoms s ++ [sev];
  data_hyper_symptoms := data_hyper_symptoms s;
  glucose_measurements := glucose_measurements s;
  alerts := alerts s
|}.

Definition append_hyper_symptoms (sev : Z) (s : Monitor) : Monitor := {|
  patient_name := patient_name s;
  diabetes_type := diabetes_type s;
  config := config s;
  data_timestamp := data_timestamp s;
  data_blood_glucose := data_blood_glucose s;
  data_glucose_trend := data_glucose_trend s;
  data_hypo_symptoms := data_hypo_symptoms s;
  data_hyper_symptoms := data_hyper_symptoms s ++ [sev];
  glucose_measurements := glucose_measurements s;
  alerts := alerts s
|}.

(** [INSERT INTO glucose_measurements]. *)
Definition insert_glucose_measurement (r : GlucoseRow) (s : Monitor) : Monitor := {|
  patient_name := patient_name s;
  diabetes_type := diabetes_type s;
  config := config s;
  data_timestamp := data_timestamp s;
  data_blood_glucose := data_blood_glucose s;
  data_glucose_trend := data_glucose_trend s;
  data_hypo_symptoms := data_hypo_symptoms s;
  data_hyper_symptoms := data_hyper_symptoms s;
  glucose_measurements := glucose_measurements s ++ [r];
  alerts := alerts s
|}.

(** [INSERT INTO alerts]. *)
Definition insert_alert (r : AlertRow) (s : Monitor) : Monitor := {|
  patient_name := patient_name s;
  diabetes_type := diabetes_type s;
  config := config s;
  data_timestamp := data_timestamp s;
  data_blood_glucose := data_blood_glucose s;
  data_glucose_trend := data_glucose_trend s;
  data_hypo_symptoms := data_hypo_symptoms s;
  data_hyper_symptoms := data_hyper_symptoms s;
  glucose_measurements := glucose_measurements s;
  alerts := alerts s ++ [r]
|}.

(* ================================================================== *)
(** ** Simulation and trend *)

(** Lines 141-155 of [simulate_glucose_measurement]: the trend of a new
    value against the last stored reading. *)
Definition glucose_trend (glucose_value : Q) (blood_glucose : list Q) : Trend :=
  if (0 <? length blood_glucose)%nat then
    let last_reading := last blood_glucose 0 in
    if Qgtb glucose_value (last_reading + 15) then StrongUp
    else if Qgtb glucose_value (last_reading + 5) then Up
    else if Qltb glucose_value (last_reading - 15) then StrongDown
    else if Qltb glucose_value (last_reading - 5) then Down
    else Stable
  else Stable.

(** Lines 128-139: the value drawn for a context, before rounding. *)
Definition simulated_value (z : Q) (context : string) (dtype : Z) : Q :=
  let '(base_value, variability) :=
    if (context =? "fasting")%string then
      (if (dtype =? 2)%Z then 100 else 130, if (dtype =? 2)%Z then 20 else 40)
    else if (context =? "postprandial")%string then
      (if (dtype =? 2)%Z then 140 else 180, if (dtype =? 2)%Z then 40 else 60)
    else
      (if (dtype =? 2)%Z then 120 else 160, if (dtype =? 2)%Z then 50 else 80) in
  py_max 50 (py_min 400 (normalvariate z base_value variability)).

Definition simulate_glucose_measurement (z : Q) (context : string) (s : Monitor)
  : Q * Trend :=
  let glucose_value := simulated_value z context (diabetes_type s) in
  let trend := glucose_trend glucose_value (data_blood_glucose s) in
  (round1 glucose_value, trend).

(* ================================================================== *)
(** ** Alerts *)

(** Lines 251-255 of [send_alert]: the severity of an alert type. *)
Definition alert_severity (alert_type : string) : Severity :=
  if (alert_type =? "severe_hyperglycemia")%string || str_in "hypo" alert_type
  then high else medium.

Definition send_alert (now : Z) (alert_type : string) (message : Message) : M unit :=
  let severity := alert_severity alert_type in
  modify (insert_alert {|
    al_timestamp := now;
    al_alert_type := alert_type;
    al_message := message;
    al_severity := severity |}).

Definition check_glucose_alerts (now : Z) (glucose_value : pyfloat) : M bool :=
  s <- get ;;
  let thresholds := thresholds_of s in
  (if flt glucose_value (hypoglycemia thresholds) then
     send_alert now "hypoglycemia" (HypoglycemiaDetected glucose_value)
   else if fgt glucose_value (severe_hyperglycemia thresholds) then
     send_alert now "severe_hyperglycemia" (SevereHyperglycemiaDetected glucose_value)
   else if fgt glucose_value (hyperglycemia thresholds) then
     send_alert now "hyperglycemia" (HyperglycemiaDetected glucose_value)
   else ret tt) ;;;
  ret true.

Definition log_symptoms (now : Z) (symptom_type : string) (severity : Z) : M bool :=
  s <- get ;;
  let limit := hypo_symptoms_severity (thresholds_of s) in
  (if (symptom_type =? "hypo")%string then
     modify (append_hypo_symptoms severity) ;;;
     (if Qgeb (inject_Z severity) limit then
        send_alert now "hypo_symptoms" (SevereHypoSymptoms severity)
      else ret tt)
   else
     modify (append_hyper_symptoms severity) ;;;
     (if Qgeb (inject_Z severity) limit then
        send_alert now "hyper_symptoms" (SevereHyperSymptoms severity)
      else ret tt)) ;;;
  ret true.

(** [now] is the time read by [log_glucose_measurement], [now_alert] the one
    read by [send_alert] if an alert is raised. *)
Definition log_glucose_measurement (now now_alert : Z) (z : Q) (context : string)
  : M (Q * Trend) :=
  s <- get ;;
  let '(glucose_value, trend) := simulate_glucose_measurement z context s in
  modify (append_measurement now glucose_value trend) ;;;
  modify (insert_glucose_measurement {|
    gm_timestamp := now;
    gm_blood_glucose := glucose_value;
    gm_measurement_context := context;
    gm_glucose_trend := trend |}) ;;;
  check_glucose_alerts now_alert (Finite glucose_value) ;;;
  ret (glucose_value, trend).

(** An operation on the monitor, with the inputs it reads from its
    environment. *)
Inductive Event : Type :=
| Measure (now now_alert : Z) (z : Q) (context : string)
| Symptoms (now : Z) (symptom_type : string) (severity : Z)
| CheckGlucose (now : Z) (glucose_value : pyfloat).

Definition step (s : Monitor) (e : Event) : Monitor :=
  match e with
  | Measure now now_alert z context => snd (log_glucose_measurement now now_alert z context s)
  | Symptoms now symptom_type severity => snd (log_symptoms now symptom_type severity s)
  | CheckGlucose now glucose_value => snd (check_glucose_alerts now glucose_value s)
  end.

Definition run (s : Monitor) (es : list Event) : Monitor := fold_left step es s.

(* ================================================================== *)
(** ** Forecast *)

(** [sklearn.linear_model.LinearRegression] on one feature, with its default
    [fit_intercept=True]: the data are centred, the slope is the
    minimum-norm least-squares solution on the centred data (0 when the
    feature is constant) and the intercept puts the line through the means.
    [fit] and [predict] refuse an array without samples. *)
Module LinearRegression.

Record model : Type := { coef_ : Q; intercept_ : Q }.

Definition mean (l : list Q) : Q := sumQ l / inject_Z (Z.of_nat (length l)).

Fixpoint dot (u v : list Q) : Q :=
  match u, v with
  | a :: u', b :: v' => a * b + dot u' v'
  | _, _ => 0
  end.

Definition fit (X y : list Q) : pyresult model :=
  match X with
  | [] => Raise ValueError
  | _ :: _ =>
      let X_offset := mean X in
      let y_offset := mean y in
      let Xc := map (fun x => x - X_offset) X in
      let yc := map (fun v => v - y_offset) y in
      let coef := dot Xc yc / dot Xc Xc in
      Ok {| coef_ := coef; intercept_ := y_offset - X_offset * coef |}
  end.

Definition predict (m : model) (X : list Q) : pyresult (list Q) :=
  match X with
  | [] => Raise ValueError
  | _ :: _ => Ok (map (fun x => x * coef_ m + intercept_ m) X)
  end.

End LinearRegression.

Inductive ForecastKind : Type :=
| PredictedHypoglycemia
| PredictedSevereHyperglycemia.

(** One line of the forecast text: what is predicted, in how many hours, and
    the predicted value (printed with one decimal). *)
Record ForecastAlert : Type := {
  fa_kind : ForecastKind;
  fa_hours : Z;
  fa_pred : Q
}.

(** The three texts [predict_glucose_trend] returns: not enough data, the
    alert lines joined by newlines, or no anomaly predicted. *)
Inductive Forecast : Type :=
| InsufficientData
| Anomalies (lines : list ForecastAlert)
| NoAnomaly.

Definition default_hours : Z := 4.

(** [self.data['blood_glucose'][-window_size:]]. *)
Definition glucose_window (s : Monitor) : list Q :=
  slice_from (- window_size (prediction_settings (config s))) (data_blood_glucose s).

(** Lines 317-332 of [predict_glucose_trend]: the fitted model's values for
    the next [hours] indices. *)
Definition forecast_predictions (hours : Z) (s : Monitor) : pyresult (list Q) :=
  let glucose_data := glucose_window s in
  let n := Z.of_nat (length glucose_data) in
  match LinearRegression.fit (arange 0 n) glucose_data with
  | Raise e => Raise e
  | Ok model => LinearRegression.predict model (arange n (n + hours))
  end.

(** Lines 335-340: the loop over [enumerate(predictions)], from index [i]. *)
Fixpoint forecast_alerts (th : AlertThresholds) (i : Z) (predictions : list Q)
  : list ForecastAlert :=
  match predictions with
  | [] => []
  | pred :: rest =>
      (if Qltb pred (hypoglycemia th) then
         [{| fa_kind := PredictedHypoglycemia; fa_hours := i + 1; fa_pred := pred |}]
       else if Qgtb pred (severe_hyperglycemia th) then
         [{| fa_kind := PredictedSevereHyperglycemia; fa_hours := i + 1; fa_pred := pred |}]
       else [])
      ++ forecast_alerts th (i + 1) rest
  end.

Definition predict_glucose_trend (hours : Z) (s : Monitor) : pyresult Forecast :=
  if (Z.of_nat (length (data_blood_glucose s))
        <? window_size (prediction_settings (config s)))%Z
  then Ok InsufficientData
  else
    match forecast_predictions hours s with
    | Raise e => Raise e
    | Ok predictions =>
        match forecast_alerts (thresholds_of s) 0 predictions with
        | [] => Ok NoAnomaly
        | (_ :: _) as lines => Ok (Anomalies lines)
        end
    end.

(* ================================================================== *)
(** ** Report *)

Record Report : Type := {
  rp_patient_name : string;
  rp_diabetes_type : Z;
  rp_hours : Z;
  mean_glucose : Q;
  min_glucose : Q;
  max_glucose : Q;
  rp_thresholds : Q * Q * Q;
  hypo_episodes : nat;
  hyper_episodes : nat;
  severe_hyper_episodes : nat;
  rp_prediction : Forecast;
  rp_targets : TargetRanges
}.

(** What [generate_diabetes_report] returns: the no-data text or the
    report. *)
Inductive ReportText : Type :=
| NoGlucoseData
| FullReport (r : Report).

(** [Series.min()] and [Series.max()] of a non-empty column. *)
Definition series_min (l : list Q) : Q :=
  match l with
  | [] => 0
  | x :: rest => fold_left (fun m v => if Qltb v m then v else m) rest x
  end.

Definition series_max (l : list Q) : Q :=
  match l with
  | [] => 0
  | x :: rest => fold_left (fun m v => if Qgtb v m then v else m) rest x
  end.

(** [len(df[df['blood_glucose'] < t])] and [len(df[df['blood_glucose'] > t])]. *)
Definition count_below (t : Q) (df : list GlucoseRow) : nat :=
  length (filter (fun r => Qltb (gm_blood_glucose r) t) df).

Definition count_above (t : Q) (df : list GlucoseRow) : nat :=
  length (filter (fun r => Qgtb (gm_blood_glucose r) t) df).

(** [df_glucose] is the result of the SQL query: the rows of
    [glucose_measurements] of the last [hours] hours. *)
Definition generate_diabetes_report (hours : Z) (df_glucose : list GlucoseRow)
  (s : Monitor) : pyresult ReportText :=
  match df_glucose with
  | [] => Ok NoGlucoseData
  | _ :: _ =>
      let th := thresholds_of s in
      let values := map gm_blood_glucose df_glucose in
      match predict_glucose_trend default_hours s with
      | Raise e => Raise e
      | Ok prediction =>
          Ok (FullReport {|
            rp_patient_name := patient_name s;
            rp_diabetes_type := diabetes_type s;
            rp_hours := hours;
            mean_glucose := LinearRegression.mean values;
            min_glucose := series_min values;
            max_glucose := series_max values;
            rp_thresholds := (hypoglycemia th, hyperglycemia th, severe_hyperglycemia th);
            hypo_episodes := count_below (hypoglycemia th) df_glucose;
            hyper_episodes := count_above (hyperglycemia th) df_glucose;
            severe_hyper_episodes := count_above (severe_hyperglycemia th) df_glucose;
            rp_prediction := prediction;
            rp_targets := target_ranges (config s) |})
      end
  end.

(* ================================================================== *)
(** ** Statements of the specification, as it words them *)

(** The severity the specification attaches to each alert type. *)
Definition spec_severity (alert_type : string) : option Severity :=
  if (alert_type =? "hypoglycemia")%string then Some high
  else if (alert_type =? "severe_hyperglycemia")%string then Some high
  else if (alert_type =? "hyperglycemia")%string then Some medium
  else if (alert_type =? "hypo_symptoms")%string then Some high
  else if (alert_type =? "hyper_symptoms")%string then Some high
  else None.

(** The trend labels recomputed from the stored readings alone: each reading
    classified against the one stored before it. *)
Fixpoint recomputed_trends (before : list Q) (readings : list Q) : list Trend :=
  match readings with
  | [] => []
  | v :: rest => glucose_trend v before :: recomputed_trends (before ++ [v]) rest
  end.

(** The forecast of the specification: the least-squares line over the whole
    sequence of [n] readings handed in, evaluated at [n .. n + h - 1]. *)
Definition spec_forecast_predictions (h : Z) (readings : list Q) : pyresult (list Q) :=
  let n := Z.of_nat (length readings) in
  match LinearRegression.fit (arange 0 n) readings with
  | Raise e => Raise e
  | Ok model => LinearRegression.predict model (arange n (n + h))
  end.

(** Sum of squared residuals of the line [a * x + b] on the points
    [(x_i, y_i)]. *)
Fixpoint squared_error (a b : Q) (X y : list Q) : Q :=
  match X, y with
  | x :: X', v :: y' => (v - (a * x + b)) * (v - (a * x + b)) + squared_error a b X' y'
  | _, _ => 0
  end.

(** A row of table [alerts], by its columns. *)
Definition glucose_alert_row (now : Z) (alert_type : string) (m : Message)
  (sev : Severity) : AlertRow :=
  {| al_timestamp := now; al_alert_type := alert_type; al_message := m; al_severity := sev |}.

(** The rows an operation added to table [alerts]. *)
Definition new_alerts (s s' : Monitor) : list AlertRow :=
  skipn (length (alerts s)) (alerts s').

(** The pairs (alert type, severity) the monitor produces. *)
Definition severity_table (a : AlertRow) : Prop :=
  (al_alert_type a = "hypoglycemia"%string /\ al_severity a = high) \/
  (al_alert_type a = "severe_hyperglycemia"%string /\ al_severity a = high) \/
  (al_alert_type a = "hyperglycemia"%string /\ al_severity a = medium) \/
  (al_alert_type a = "hypo_symptoms"%string /\ al_severity a = high) \/
  (al_alert_type a = "hyper_symptoms"%string /\ al_severity a = medium).

(** The trend labels a sequence of operations appends: each simulated value,
    before it is rounded, classified against the readings stored so far. *)
Fixpoint expected_trends (dtype : Z) (stored : list Q) (es : list Event) : list Trend :=
  match es with
  | [] => []
  | Measure _ _ z context :: rest =>
      let v := simulated_value z context dtype in
      glucose_trend v stored :: expected_trends dtype (stored ++ [round1 v]) rest
  | _ :: rest => expected_trends dtype stored rest
  end.

(** The readings the same operations store: each simulated value rounded to
    one decimal. *)
Fixpoint expected_readings (dtype : Z) (es : list Event) : list Q :=
  match es with
  | [] => []
  | Measure _ _ z context :: rest =>
      round1 (simulated_value z context dtype) :: expected_readings dtype rest
  | _ :: rest => expected_readings dtype rest
  end.

(** A forecast line [a] reports a breach of the predictions [preds], numbered
    from [i]: it names a step [k], gives the hours ahead and the value
    predicted there, and says hypoglycemia when the value is below the
    [hypoglycemia] threshold, severe hyperglycemia when it is not and is above
    the [severe_hyperglycemia] threshold. *)
Definition breach (th : AlertThresholds) (i : Z) (preds : list Q) (a : ForecastAlert) : Prop :=
  exists k : nat,
    (k < length preds)%nat /\
    fa_hours a = (i + Z.of_nat k + 1)%Z /\
    fa_pred a = nth k preds 0 /\
    ((fa_kind a = PredictedHypoglycemia /\ nth k preds 0 < hypoglycemia th) \/
     (fa_kind a = PredictedSevereHyperglycemia /\
      ~ nth k preds 0 < hypoglycemia th /\ severe_hyperglycemia th < nth k preds 0)).

(** Readings strictly below, and strictly above, a threshold. *)
Definition strictly_below (t : Q) (r : GlucoseRow) : bool :=
  if Qlt_le_dec (gm_blood_glucose r) t then true else false.

Definition strictly_above (t : Q) (r : GlucoseRow) : bool :=
  if Qlt_le_dec t (gm_blood_glucose r) then true else false.

(** A configuration file whose [severe_hyperglycemia] threshold lies below
    its [hyperglycemia] threshold; [load_config] accepts it as it is. *)
Definition misordered_config : Config := {|
  alert_thresholds := {|
    hypoglycemia := 70;
    hyperglycemia := 180;
    severe_hyperglycemia := 100;
    ketoacidosis_risk := 1.5;
    hypo_symptoms_severity := 7 |};
  target_ranges := target_ranges default_config;
  email_alerts := email_alerts default_config;
  prediction_settings := prediction_settings default_config
|}.

(** The number of elements of a list, as a rational. *)
Definition lenQ {A : Type} (l : list A) : Q := inject_Z (Z.of_nat (length l)).

(** The sum of the residuals of the line [a * x + b], and the sum of the
    residuals weighted by [x]. *)
Fixpoint res0 (a b : Q) (X y : list Q) : Q :=
  match X, y with
  | x :: X', v :: y' => (v - (a * x + b)) + res0 a b X' y'
  | _, _ => 0
  end.

Fixpoint res1 (a b : Q) (X y : list Q) : Q :=
  match X, y with
  | x :: X', v :: y' => (v - (a * x + b)) * x + res1 a b X' y'
  | _, _ => 0
  end.

(* ================================================================== *)
(** ** The display, the journal of meals and insulin, and counting *)

(** The four status texts of [update_display_values]: take sugar, contact
    the doctor, watch, in target. *)
Inductive DisplayStatus : Type :=
| StatusHypoglycemia
| StatusSevereHyperglycemia
| StatusHyperglycemia
| StatusInTarget.

(** Lines 547-559 of [update_display_values]: the status and its colour. *)
Definition display_status (th : AlertThresholds) (glucose_value : Q)
  : DisplayStatus * string :=
  if Qltb glucose_value (hypoglycemia th) then (StatusHypoglycemia, "red"%string)
  else if Qgtb glucose_value (severe_hyperglycemia th) then
    (StatusSevereHyperglycemia, "purple"%string)
  else if Qgtb glucose_value (hyperglycemia th) then (StatusHyperglycemia, "orange"%string)
  else (StatusInTarget, "green"%string).

(** [DiabetesMonitoringGUI.measure_glucose]: a measurement in the default
    context, then the status shown for it. *)
Definition measure_glucose (now now_alert : Z) (z : Q)
  : M (Q * Trend * (DisplayStatus * string)) :=
  vt <- log_glucose_measurement now now_alert z "random" ;;
  s <- get ;;
  ret (vt, display_status (thresholds_of s) (fst vt)).

(** The alert type a status corresponds to. *)
Definition status_alert_types (st : DisplayStatus) : list string :=
  match st with
  | StatusHypoglycemia => ["hypoglycemia"%string]
  | StatusSevereHyperglycemia => ["severe_hyperglycemia"%string]
  | StatusHyperglycemia => ["hyperglycemia"%string]
  | StatusInTarget => []
  end.












(** The number of alerts of one type in the table. *)
Definition count_alerts (alert_type : string) (l : list AlertRow) : nat :=
  length (filter (fun a => (al_alert_type a =? alert_type)%string) l).

(** Operations other than a direct call of [check_glucose_alerts]. *)
Definition is_logged (e : Event) : bool :=
  match e with
  | CheckGlucose _ _ => false
  | _ => true
  end.

(** The number of measurements among the operations. *)
Definition count_measures (es : list Event) : nat :=
  length (filter (fun e => match e with Measure _ _ _ _ => true | _ => false end) es).

(** A stored reading: a number of tenths between 50.0 and 400.0. *)
Definition stored_reading (v : Q) : Prop :=
  exists p : Z, v = p # 10 /\ (500 <= p <= 4000)%Z.

(** The default configuration with another window size. *)
Definition with_window_size (w : Z) (c : Config) : Config := {|
  alert_thresholds := alert_thresholds c;
  target_ranges := target_ranges c;
  email_alerts := email_alerts c;
  prediction_settings := {|
    window_size := w;
    forecast_hours := forecast_hours (prediction_settings c) |}
|}.

(** The alert counts of the table agree with the episode counts of the
    measurement table. *)
Definition counts_agree (s : Monitor) : Prop :=
  let th := thresholds_of s in
  let n ty := count_alerts ty (alerts s) in
  let df := glucose_measurements s in
  n "hypoglycemia"%string = count_below (hypoglycemia th) df /\
  (hypoglycemia th <= severe_hyperglycemia th ->
   n "severe_hyperglycemia"%string = count_above (severe_hyperglycemia th) df) /\
  (hypoglycemia th <= hyperglycemia th -> hyperglycemia th <= severe_hyperglycemia th ->
   (n "hyperglycemia"%string + n "severe_hyperglycemia"%string)%nat
   = count_above (hyperglycemia th) df).

(* ================================================================== *)
(** * Properties *)

(** ** Comparisons *)

Lemma Qltb_lt (x y : Q) : Qltb x y = true <-> x < y.
Proof.
  unfold Qltb. rewrite negb_true_iff.
  split; intro H.
  - apply Qnot_le_lt. intro Hle. apply Qle_bool_iff in Hle. congruence.
  - destruct (Qle_bool y x) eqn:E; [|reflexivity].
    apply Qle_bool_iff in E. exfalso. apply (Qlt_not_le _ _ H E).
Qed.

Lemma Qltb_ge (x y : Q) : Qltb x y = false <-> y <= x.
Proof.
  unfold Qltb. rewrite negb_false_iff. apply Qle_bool_iff.
Qed.

Lemma Qgtb_gt (x y : Q) : Qgtb x y = true <-> y < x.
Proof. unfold Qgtb. apply Qltb_lt. Qed.

Lemma Qgtb_le (x y : Q) : Qgtb x y = false <-> x <= y.
Proof. unfold Qgtb. apply Qltb_ge. Qed.

(** Turns every boolean comparison in sight into its proposition. *)
Ltac reflect_cmp :=
  repeat match goal with
  | H : Qltb _ _ = true |- _ => apply Qltb_lt in H
  | H : Qltb _ _ = false |- _ => apply Qltb_ge in H
  | H : Qgtb _ _ = true |- _ => apply Qgtb_gt in H
  | H : Qgtb _ _ = false |- _ => apply Qgtb_le in H
  | H : Qgeb _ _ = true |- _ => apply Qle_bool_iff in H
  end.

(** ** Alert engine *)

(** [check_glucose_alerts] as one conditional on the state. *)
Lemma check_glucose_alerts_unfold (now : Z) (v : pyfloat) (s : Monitor) :
  check_glucose_alerts now v s =
  (true,
   if flt v (hypoglycemia (thresholds_of s)) then
     insert_alert (glucose_alert_row now "hypoglycemia" (HypoglycemiaDetected v) high) s
   else if fgt v (severe_hyperglycemia (thresholds_of s)) then
     insert_alert (glucose_alert_row now "severe_hyperglycemia"
                     (SevereHyperglycemiaDetected v) high) s
   else if fgt v (hyperglycemia (thresholds_of s)) then
     insert_alert (glucose_alert_row now "hyperglycemia" (HyperglycemiaDetected v) medium) s
   else s).
Proof.
  unfold check_glucose_alerts, bind, get, ret, send_alert, modify.
  destruct (flt v _); [reflexivity|].
  destruct (fgt v (severe_hyperglycemia _)); [reflexivity|].
  destruct (fgt v (hyperglycemia _)); reflexivity.
Qed.

Lemma new_alerts_insert (r : AlertRow) (s : Monitor) :
  new_alerts s (insert_alert r s) = [r].
Proof.
  unfold new_alerts. simpl.
  rewrite skipn_app, skipn_all, Nat.sub_diag. reflexivity.
Qed.

Lemma new_alerts_same (s : Monitor) : new_alerts s s = [].
Proof. unfold new_alerts. apply skipn_all. Qed.

(** C1. [check_glucose_alerts] tests hypoglycemia first, then severe
    hyperglycemia, then hyperglycemia, each with a strict inequality, and
    takes the first branch that applies: a value below [hypoglycemia] raises
    the hypoglycemia alert; otherwise a value above [severe_hyperglycemia]
    raises the severe one; otherwise a value above [hyperglycemia] raises the
    hyperglycemia alert; otherwise the monitor is unchanged.  Whatever the
    value, at most one row is added to the alerts.  With the thresholds
    70, 180, 250: 69.9 gives hypoglycemia, 250.1 severe hyperglycemia, 180.1
    hyperglycemia and 150 nothing. *)
Theorem check_glucose_alerts_order :
  forall (now : Z) (s : Monitor),
    let th := thresholds_of s in
    (forall q : Q,
        let s' := snd (check_glucose_alerts now (Finite q) s) in
        (q < hypoglycemia th ->
         s' = insert_alert (glucose_alert_row now "hypoglycemia"
                              (HypoglycemiaDetected (Finite q)) high) s) /\
        (~ q < hypoglycemia th -> severe_hyperglycemia th < q ->
         s' = insert_alert (glucose_alert_row now "severe_hyperglycemia"
                              (SevereHyperglycemiaDetected (Finite q)) high) s) /\
        (~ q < hypoglycemia th -> ~ severe_hyperglycemia th < q -> hyperglycemia th < q ->
         s' = insert_alert (glucose_alert_row now "hyperglycemia"
                              (HyperglycemiaDetected (Finite q)) medium) s) /\
        (~ q < hypoglycemia th -> ~ severe_hyperglycemia th < q -> ~ hyperglycemia th < q ->
         s' = s)) /\
    (forall v : pyfloat,
        let s' := snd (check_glucose_alerts now v s) in
        alerts s' = alerts s ++ new_alerts s s' /\ (length (new_alerts s s') <= 1)%nat) /\
    (let d := set_config default_config s in
     let raised v := map al_alert_type (new_alerts d (snd (check_glucose_alerts now (Finite v) d))) in
     raised 69.9 = ["hypoglycemia"%string] /\
     raised 250.1 = ["severe_hyperglycemia"%string] /\
     raised 180.1 = ["hyperglycemia"%string] /\
     raised 150 = []).
Proof.
  intros now s th. split; [|split].
  - intros q s'. subst s'. rewrite check_glucose_alerts_unfold. fold th. cbn [snd flt fgt].
    destruct (Qltb q (hypoglycemia th)) eqn:E1;
      destruct (Qgtb q (severe_hyperglycemia th)) eqn:E2;
      destruct (Qgtb q (hyperglycemia th)) eqn:E3;
      reflect_cmp;
      repeat split; intros; try reflexivity;
      match goal with
      | H : ~ _ |- _ => exfalso; apply H; assumption
      | H : _ < _, H' : _ <= _ |- _ => exfalso; apply (Qlt_not_le _ _ H H')
      end.
  - intros v s'. subst s'. rewrite check_glucose_alerts_unfold. cbn [snd].
    destruct (flt v _); [|destruct (fgt v (severe_hyperglycemia _));
                           [|destruct (fgt v (hyperglycemia _))]];
      rewrite ?new_alerts_insert, ?new_alerts_same, ?app_nil_r; cbn; auto.
  - cbn zeta. repeat split;
      rewrite check_glucose_alerts_unfold; cbn [snd];
      match goal with
      | |- context [if ?c then _ else _] => let b := eval vm_compute in c in change c with b
      end; cbn iota;
      repeat match goal with
      | |- context [if ?c then _ else _] => let b := eval vm_compute in c in change c with b; cbn iota
      end;
      rewrite ?new_alerts_insert, ?new_alerts_same; reflexivity.
Qed.

(** The theorem at the first reading of a fresh monitor: 69.9 mg/dL under the
    default thresholds adds exactly the hypoglycemia alert. *)
Lemma check_glucose_alerts_order_witness :
  let s := new_monitor "Marie Dupont" 1 default_config in
  69.9 < hypoglycemia (thresholds_of s) /\
  snd (check_glucose_alerts 0 (Finite 69.9) s) =
  insert_alert (glucose_alert_row 0 "hypoglycemia" (HypoglycemiaDetected (Finite 69.9)) high) s.
Proof.
  intro s.
  assert (H : 69.9 < hypoglycemia (thresholds_of s)) by (vm_compute; reflexivity).
  split; [exact H|].
  exact (proj1 (proj1 (check_glucose_alerts_order 0 s) 69.9) H).
Defined.

(** [log_symptoms] as one conditional on the state. *)
Lemma log_symptoms_unfold (now : Z) (symptom_type : string) (severity : Z) (s : Monitor) :
  log_symptoms now symptom_type severity s =
  (true,
   if (symptom_type =? "hypo")%string then
     if Qgeb (inject_Z severity) (hypo_symptoms_severity (thresholds_of s)) then
       insert_alert (glucose_alert_row now "hypo_symptoms" (SevereHypoSymptoms severity) high)
         (append_hypo_symptoms severity s)
     else append_hypo_symptoms severity s
   else
     if Qgeb (inject_Z severity) (hypo_symptoms_severity (thresholds_of s)) then
       insert_alert (glucose_alert_row now "hyper_symptoms" (SevereHyperSymptoms severity) medium)
         (append_hyper_symptoms severity s)
     else append_hyper_symptoms severity s).
Proof.
  unfold log_symptoms, bind, get, ret, send_alert, modify.
  destruct (symptom_type =? "hypo")%string;
    destruct (Qgeb _ _); reflexivity.
Qed.

(** [log_glucose_measurement] stores the simulated pair in memory and in the
    database, then checks the stored value. *)
Lemma log_glucose_measurement_unfold (now now_alert : Z) (z : Q) (context : string)
  (s : Monitor) :
  let vt := simulate_glucose_measurement z context s in
  log_glucose_measurement now now_alert z context s =
  (vt,
   snd (check_glucose_alerts now_alert (Finite (fst vt))
          (insert_glucose_measurement
             {| gm_timestamp := now; gm_blood_glucose := fst vt;
                gm_measurement_context := context; gm_glucose_trend := snd vt |}
             (append_measurement now (fst vt) (snd vt) s)))).
Proof.
  intro vt. unfold log_glucose_measurement, bind, get, ret, modify.
  fold vt. destruct vt as [v t]. cbn [fst snd].
  destruct (check_glucose_alerts _ _ _). reflexivity.
Qed.

Lemma severity_table_glucose (now : Z) (v : pyfloat) (s : Monitor) :
  exists l, alerts (snd (check_glucose_alerts now v s)) = alerts s ++ l
            /\ Forall severity_table l.
Proof.
  rewrite check_glucose_alerts_unfold. cbn [snd].
  destruct (flt v _); [|destruct (fgt v (severe_hyperglycemia _));
                         [|destruct (fgt v (hyperglycemia _))]].
  4: { exists []. rewrite app_nil_r. auto. }
  all: eexists; split; [reflexivity|]; constructor; [|constructor];
    unfold severity_table; cbn; tauto.
Qed.

Lemma severity_table_symptoms (now : Z) (ty : string) (sev : Z) (s : Monitor) :
  exists l, alerts (snd (log_symptoms now ty sev s)) = alerts s ++ l
            /\ Forall severity_table l.
Proof.
  rewrite log_symptoms_unfold. cbn [snd].
  destruct (ty =? "hypo")%string; destruct (Qgeb _ _); cbn [alerts insert_alert
    append_hypo_symptoms append_hyper_symptoms].
  2, 4: exists []; rewrite app_nil_r; split; [reflexivity|constructor].
  all: eexists; (split; [reflexivity|]); constructor; [|constructor];
    unfold severity_table; cbn; tauto.
Qed.

Lemma severity_table_step (s : Monitor) (e : Event) :
  exists l, alerts (step s e) = alerts s ++ l /\ Forall severity_table l.
Proof.
  destruct e as [now now_alert z context | now ty sev | now v]; cbn [step].
  - rewrite log_glucose_measurement_unfold. cbn [snd].
    match goal with
    | |- context [check_glucose_alerts ?n ?v ?s0] =>
        destruct (severity_table_glucose n v s0) as (l & Hl & HF)
    end.
    exists l. split; [|exact HF]. rewrite Hl. reflexivity.
  - apply severity_table_symptoms.
  - apply severity_table_glucose.
Qed.

Lemma severity_table_run (es : list Event) :
  forall s, exists l, alerts (run s es) = alerts s ++ l /\ Forall severity_table l.
Proof.
  induction es as [|e es IH]; intro s; cbn [run fold_left].
  - exists []. rewrite app_nil_r. auto.
  - destruct (severity_table_step s e) as (l1 & H1 & F1).
    destruct (IH (step s e)) as (l2 & H2 & F2).
    exists (l1 ++ l2). split.
    + unfold run in H2. rewrite H2, H1, app_assoc. reflexivity.
    + apply Forall_app. auto.
Qed.

(** C2 as the specification words it fails: a hyperglycemia symptom report of
    severity 9 raises an alert of type hyper_symptoms whose severity is
    medium, where the specification says high. *)
Lemma hyper_symptoms_alert_is_medium :
  exists a : AlertRow,
    In a (alerts (snd (log_symptoms 0 "hyper" 9
                         (new_monitor "Marie Dupont" 1 default_config)))) /\
    al_alert_type a = "hyper_symptoms"%string /\
    al_severity a = medium /\
    spec_severity (al_alert_type a) <> Some (al_severity a).
Proof.
  eexists. split; [|split; [|split]].
  - rewrite log_symptoms_unfold. cbn. left. reflexivity.
  - reflexivity.
  - reflexivity.
  - cbn. discriminate.
Qed.

(** C2, amended. The severity [send_alert] attaches is high for hypoglycemia,
    severe_hyperglycemia and hypo_symptoms, and medium for hyperglycemia and
    hyper_symptoms; every alert any sequence of operations adds to the table
    carries one of these five (type, severity) pairs, so no other severity
    is produced. *)
Theorem alert_severity_by_type :
  alert_severity "hypoglycemia" = high /\
  alert_severity "severe_hyperglycemia" = high /\
  alert_severity "hyperglycemia" = medium /\
  alert_severity "hypo_symptoms" = high /\
  alert_severity "hyper_symptoms" = medium /\
  (forall (now : Z) (alert_type : string) (m : Message) (s : Monitor),
      alerts (snd (send_alert now alert_type m s)) =
      alerts s ++ [glucose_alert_row now alert_type m (alert_severity alert_type)]) /\
  (forall (s : Monitor) (es : list Event),
      exists l, alerts (run s es) = alerts s ++ l /\ Forall severity_table l).
Proof.
  repeat split; try reflexivity.
  intros s es. apply severity_table_run.
Qed.

(** ** Trend *)

Lemma glucose_trend_last (cur prev : Q) (history : list Q) :
  glucose_trend cur (history ++ [prev]) =
  if Qgtb cur (prev + 15) then StrongUp
  else if Qgtb cur (prev + 5) then Up
  else if Qltb cur (prev - 15) then StrongDown
  else if Qltb cur (prev - 5) then Down
  else Stable.
Proof.
  unfold glucose_trend. rewrite last_last.
  replace (0 <? length (history ++ [prev]))%nat with true; [reflexivity|].
  symmetry. apply Nat.ltb_lt. rewrite length_app. cbn. lia.
Qed.

Lemma glucose_trend_by_difference (cur prev : Q) (history : list Q) :
  let t := glucose_trend cur (history ++ [prev]) in
  (t = StrongUp <-> 15 < cur - prev) /\
  (t = Up <-> 5 < cur - prev /\ cur - prev <= 15) /\
  (t = StrongDown <-> cur - prev < -15) /\
  (t = Down <-> -15 <= cur - prev /\ cur - prev < -5) /\
  (t = Stable <-> -5 <= cur - prev /\ cur - prev <= 5).
Proof.
  cbn zeta. rewrite glucose_trend_last.
  destruct (Qgtb cur (prev + 15)) eqn:E1;
    [|destruct (Qgtb cur (prev + 5)) eqn:E2;
      [|destruct (Qltb cur (prev - 15)) eqn:E3;
        [|destruct (Qltb cur (prev - 5)) eqn:E4]]];
    reflect_cmp;
    repeat split; intros; try discriminate; try reflexivity; try lra.
Qed.


(** ** Input validation *)

(** C4 as the specification words it fails: an infinite glucose value and a
    symptom severity of 11 are both accepted; each call returns [True], and
    each leaves an alert in the table (the severity is also recorded in
    memory). *)
Lemma invalid_inputs_are_accepted :
  let s := new_monitor "Marie Dupont" 1 default_config in
  is_finite PosInf = false /\
  fst (check_glucose_alerts 0 PosInf s) = true /\
  map al_alert_type (alerts (snd (check_glucose_alerts 0 PosInf s)))
    = ["severe_hyperglycemia"%string] /\
  ~ (1 <= 11 <= 10)%Z /\
  fst (log_symptoms 0 "hypo" 11 s) = true /\
  map al_alert_type (alerts (snd (log_symptoms 0 "hypo" 11 s))) = ["hypo_symptoms"%string] /\
  data_hypo_symptoms (snd (log_symptoms 0 "hypo" 11 s)) = [11%Z].
Proof.
  intro s. repeat split; try reflexivity. lia.
Qed.

(** C4, amended. Neither operation validates its input or fails.
    [check_glucose_alerts] returns [True] for every float: NaN raises no alert
    and leaves the monitor unchanged, plus infinity raises the severe
    hyperglycemia alert and minus infinity the hypoglycemia alert.
    [log_symptoms] returns [True] for every severity, in or out of 1..10:
    the severity is appended to the symptom list of its kind, and an alert is
    added exactly when the severity reaches [hypo_symptoms_severity]. *)
Theorem no_input_validation :
  forall (now : Z) (s : Monitor),
    check_glucose_alerts now NaN s = (true, s) /\
    check_glucose_alerts now PosInf s =
      (true, insert_alert (glucose_alert_row now "severe_hyperglycemia"
                             (SevereHyperglycemiaDetected PosInf) high) s) /\
    check_glucose_alerts now NegInf s =
      (true, insert_alert (glucose_alert_row now "hypoglycemia"
                             (HypoglycemiaDetected NegInf) high) s) /\
    (forall (symptom_type : string) (severity : Z),
        let r := log_symptoms now symptom_type severity s in
        let hypo := (symptom_type =? "hypo")%string in
        fst r = true /\
        data_hypo_symptoms (snd r) =
          data_hypo_symptoms s ++ (if hypo then [severity] else []) /\
        data_hyper_symptoms (snd r) =
          data_hyper_symptoms s ++ (if hypo then [] else [severity]) /\
        alerts (snd r) =
          alerts s ++
          (if Qgeb (inject_Z severity) (hypo_symptoms_severity (thresholds_of s)) then
             [if hypo then
                glucose_alert_row now "hypo_symptoms" (SevereHypoSymptoms severity) high
              else
                glucose_alert_row now "hyper_symptoms" (SevereHyperSymptoms severity) medium]
           else [])).
Proof.
  intros now s.
  split; [rewrite check_glucose_alerts_unfold; reflexivity|].
  split; [rewrite check_glucose_alerts_unfold; reflexivity|].
  split; [rewrite check_glucose_alerts_unfold; reflexivity|].
  intros symptom_type severity. cbn zeta.
  rewrite log_symptoms_unfold. cbn [fst snd].
  destruct (symptom_type =? "hypo")%string; destruct (Qgeb _ _);
    cbn; rewrite ?app_nil_r; auto.
Qed.

(** ** Stored trend *)

Lemma check_glucose_alerts_data (now : Z) (v : pyfloat) (s : Monitor) :
  let s' := snd (check_glucose_alerts now v s) in
  diabetes_type s' = diabetes_type s /\
  data_blood_glucose s' = data_blood_glucose s /\
  data_glucose_trend s' = data_glucose_trend s /\
  glucose_measurements s' = glucose_measurements s.
Proof.
  cbn zeta. rewrite check_glucose_alerts_unfold. cbn [snd].
  destruct (flt v _); [|destruct (fgt v (severe_hyperglycemia _));
                         [|destruct (fgt v (hyperglycemia _))]];
    repeat split; reflexivity.
Qed.

Lemma log_symptoms_data (now : Z) (ty : string) (sev : Z) (s : Monitor) :
  let s' := snd (log_symptoms now ty sev s) in
  diabetes_type s' = diabetes_type s /\
  data_blood_glucose s' = data_blood_glucose s /\
  data_glucose_trend s' = data_glucose_trend s /\
  glucose_measurements s' = glucose_measurements s.
Proof.
  cbn zeta. rewrite log_symptoms_unfold. cbn [snd].
  destruct (ty =? "hypo")%string; destruct (Qgeb _ _); repeat split; reflexivity.
Qed.

Lemma log_glucose_measurement_data (now now_alert : Z) (z : Q) (context : string)
  (s : Monitor) :
  let s' := snd (log_glucose_measurement now now_alert z context s) in
  let v := simulated_value z context (diabetes_type s) in
  let t := glucose_trend v (data_blood_glucose s) in
  diabetes_type s' = diabetes_type s /\
  data_blood_glucose s' = data_blood_glucose s ++ [round1 v] /\
  data_glucose_trend s' = data_glucose_trend s ++ [t] /\
  glucose_measurements s' =
    glucose_measurements s ++
    [{| gm_timestamp := now; gm_blood_glucose := round1 v;
        gm_measurement_context := context; gm_glucose_trend := t |}].
Proof.
  cbn zeta. rewrite log_glucose_measurement_unfold. cbn [snd].
  match goal with
  | |- context [check_glucose_alerts ?n ?x ?s0] =>
      destruct (check_glucose_alerts_data n x s0) as (H1 & H2 & H3 & H4)
  end.
  rewrite H1, H2, H3, H4. repeat split; reflexivity.
Qed.

Lemma run_measurements (es : list Event) :
  forall s : Monitor,
    let dtype := diabetes_type s in
    data_blood_glucose (run s es) = data_blood_glucose s ++ expected_readings dtype es /\
    data_glucose_trend (run s es) =
      data_glucose_trend s ++ expected_trends dtype (data_blood_glucose s) es /\
    map gm_blood_glucose (glucose_measurements (run s es)) =
      map gm_blood_glucose (glucose_measurements s) ++ expected_readings dtype es /\
    map gm_glucose_trend (glucose_measurements (run s es)) =
      map gm_glucose_trend (glucose_measurements s)
      ++ expected_trends dtype (data_blood_glucose s) es.
Proof.
  induction es as [|e es IH]; intro s; cbn zeta.
  - cbn. rewrite !app_nil_r. auto.
  - change (run s (e :: es)) with (run (step s e) es).
    destruct (IH (step s e)) as (I1 & I2 & I3 & I4).
    rewrite I1, I2, I3, I4. clear IH I1 I2 I3 I4.
    destruct e as [now now_alert z context | now ty sev | now v]; cbn [step].
    + destruct (log_glucose_measurement_data now now_alert z context s)
        as (H1 & H2 & H3 & H4).
      rewrite H1, H2, H3, H4. cbn [expected_readings expected_trends].
      rewrite !map_app. cbn [map gm_blood_glucose gm_glucose_trend].
      rewrite <- !app_assoc. cbn [app]. auto.
    + destruct (log_symptoms_data now ty sev s) as (H1 & H2 & H3 & H4).
      rewrite H1, H2, H3, H4. cbn [expected_readings expected_trends]. auto.
    + destruct (check_glucose_alerts_data now v s) as (H1 & H2 & H3 & H4).
      rewrite H1, H2, H3, H4. cbn [expected_readings expected_trends]. auto.
Qed.

(** C5 as the specification words it fails: after a reading of 100.0, a
    simulated value of 115.04 is labelled StrongUp (it exceeds 100 + 15) and
    stored as 115.0; recomputed from the two stored readings the label would
    be Up. *)
Lemma stored_trend_not_recomputable :
  let s := run (new_monitor "Marie Dupont" 1 default_config)
               [Measure 0 0 (-0.75) "random"; Measure 1 1 (-0.562) "random"] in
  data_blood_glucose s = [1000 # 10; 1150 # 10] /\
  map gm_blood_glucose (glucose_measurements s) = [1000 # 10; 1150 # 10] /\
  data_glucose_trend s = [Stable; StrongUp] /\
  map gm_glucose_trend (glucose_measurements s) = [Stable; StrongUp] /\
  recomputed_trends [] (data_blood_glucose s) = [Stable; Up] /\
  data_glucose_trend s <> recomputed_trends [] (data_blood_glucose s).
Proof.
  vm_compute. repeat split; discriminate.
Qed.

(** C5, amended. The trend stored with a measurement, in memory and in the
    database, is the classification of the simulated value before it is
    rounded to one decimal against the previous stored reading (Stable when
    there is none); the stored value is that simulated value rounded. *)
Theorem stored_trend_is_trend_of_unrounded_value :
  forall (s : Monitor) (es : list Event),
    let dtype := diabetes_type s in
    data_blood_glucose (run s es) = data_blood_glucose s ++ expected_readings dtype es /\
    data_glucose_trend (run s es) =
      data_glucose_trend s ++ expected_trends dtype (data_blood_glucose s) es /\
    map gm_blood_glucose (glucose_measurements (run s es)) =
      map gm_blood_glucose (glucose_measurements s) ++ expected_readings dtype es /\
    map gm_glucose_trend (glucose_measurements (run s es)) =
      map gm_glucose_trend (glucose_measurements s)
      ++ expected_trends dtype (data_blood_glucose s) es.
Proof.
  intros s es. apply run_measurements.
Qed.

(** ** Least squares *)

Import LinearRegression.

Lemma lenQ_cons {A} (x : A) l : lenQ (x :: l) == 1 + lenQ l.
Proof.
  unfold lenQ. cbn [length]. rewrite Nat2Z.inj_succ, <- Z.add_1_l, inject_Z_plus. reflexivity.
Qed.

Lemma sumQ_cons x l : sumQ (x :: l) = x + sumQ l.
Proof. reflexivity. Qed.

Lemma Qsquare_nonneg (q : Q) : 0 <= q * q.
Proof. nra. Qed.

Lemma dot_nonneg u : 0 <= dot u u.
Proof.
  induction u as [|a u IH]; cbn [dot]; [lra|].
  pose proof (Qsquare_nonneg a). lra.
Qed.

Lemma dot_self_zero u : dot u u == 0 -> forall v, dot u v == 0.
Proof.
  induction u as [|a u IH]; intros H v; cbn [dot] in *; [reflexivity|].
  destruct v as [|b v]; [reflexivity|].
  pose proof (dot_nonneg u) as Hu.
  assert (Ha : a * a == 0) by nra.
  assert (Hu0 : dot u u == 0) by nra.
  rewrite (IH Hu0 v).
  assert (a == 0) by nra. rewrite H0. ring.
Qed.

Lemma dot_centered (c d : Q) : forall X y, length X = length y ->
  dot (map (fun x => x - c) X) (map (fun v => v - d) y)
  == dot X y - c * sumQ y - d * sumQ X + lenQ X * c * d.
Proof.
  induction X as [|x X IH]; intros [|v y] Hlen; try discriminate.
  - change (0 == 0 - c * 0 - d * 0 + 0 * c * d). ring.
  - cbn [map dot]. rewrite IH by (cbn in Hlen; lia).
    rewrite !sumQ_cons, lenQ_cons. ring.
Qed.

Lemma squared_error_nonneg a b : forall X y, 0 <= squared_error a b X y.
Proof.
  induction X as [|x X IH]; intros [|v y]; cbn [squared_error]; try lra.
  specialize (IH y). pose proof (Qsquare_nonneg (v - (a * x + b))). lra.
Qed.

Lemma squared_error_shift (a b a' b' : Q) : forall X y,
  squared_error a' b' X y ==
  squared_error a b X y - 2 * (a' - a) * res1 a b X y - 2 * (b' - b) * res0 a b X y
  + squared_error (a' - a) (b' - b) X (map (fun _ => 0) y).
Proof.
  induction X as [|x X IH]; intros [|v y]; cbn [squared_error res0 res1 map]; try ring.
  rewrite IH. ring.
Qed.

Lemma res0_sum a b : forall X y, length X = length y ->
  res0 a b X y == sumQ y - a * sumQ X - b * lenQ X.
Proof.
  induction X as [|x X IH]; intros [|v y] Hlen; try discriminate.
  - change (0 == 0 - a * 0 - b * 0). ring.
  - cbn [res0]. rewrite IH by (cbn in Hlen; lia). rewrite !sumQ_cons, lenQ_cons. ring.
Qed.

Lemma res1_sum a b : forall X y, length X = length y ->
  res1 a b X y == dot X y - a * dot X X - b * sumQ X.
Proof.
  induction X as [|x X IH]; intros [|v y] Hlen; try discriminate.
  - change (0 == 0 - a * 0 - b * 0). ring.
  - cbn [res1 dot]. rewrite IH by (cbn in Hlen; lia). rewrite !sumQ_cons. ring.
Qed.

Lemma lenQ_pos {A} (x : A) l : 0 < lenQ (x :: l).
Proof.
  unfold lenQ. change 0 with (inject_Z 0). rewrite <- Zlt_Qlt. cbn [length]. lia.
Qed.

Lemma fit_least_squares (X y : list Q) (m : model) :
  length X = length y ->
  fit X y = Ok m ->
  forall a' b', squared_error (coef_ m) (intercept_ m) X y <= squared_error a' b' X y.
Proof.
  intros Hlen Hfit a' b'.
  destruct X as [|x0 X0] eqn:EX; [discriminate|]. rewrite <- EX in *.
  assert (Hn : 0 < lenQ X) by (rewrite EX; apply lenQ_pos).
  unfold fit in Hfit. rewrite EX in Hfit. rewrite <- EX in Hfit.
  injection Hfit as <-. cbn [coef_ intercept_].
  set (xb := mean X). set (yb := mean y).
  set (Xc := map (fun x => x - xb) X). set (yc := map (fun v => v - yb) y).
  set (a := dot Xc yc / dot Xc Xc).
  set (b := yb - xb * a).
  assert (Hxb : xb * lenQ X == sumQ X).
  { unfold xb, mean. fold (lenQ X). field. lra. }
  assert (Hyb : yb * lenQ X == sumQ y).
  { unfold yb, mean. rewrite <- Hlen. fold (lenQ X). field. lra. }
  assert (Hsxy : dot Xc yc == dot X y - xb * sumQ y).
  { unfold Xc, yc. rewrite dot_centered by exact Hlen. rewrite <- Hxb. ring. }
  assert (Hsxx : dot Xc Xc == dot X X - xb * sumQ X).
  { unfold Xc. rewrite dot_centered by reflexivity. rewrite <- Hxb. ring. }
  assert (Ha : a * dot Xc Xc == dot Xc yc).
  { destruct (Qeq_dec (dot Xc Xc) 0) as [Hz|Hnz].
    - rewrite (dot_self_zero _ Hz yc), Hz. ring.
    - unfold a. field. exact Hnz. }
  assert (H0 : res0 a b X y == 0).
  { rewrite res0_sum by exact Hlen. unfold b. rewrite <- Hxb, <- Hyb. ring. }
  assert (H1 : res1 a b X y == 0).
  { rewrite res1_sum by exact Hlen. unfold b.
    rewrite Hsxy, Hsxx in Ha.
    assert (Hc : yb * sumQ X == xb * sumQ y) by (rewrite <- Hxb, <- Hyb; ring).
    assert (E : dot X y - a * dot X X - (yb - xb * a) * sumQ X
                == (dot X y - xb * sumQ y) - a * (dot X X - xb * sumQ X)
                   - (yb * sumQ X - xb * sumQ y)) by ring.
    rewrite E, Ha, Hc. ring. }
  rewrite (squared_error_shift a b a' b').
  rewrite H0, H1.
  pose proof (squared_error_nonneg (a' - a) (b' - b) X (map (fun _ => 0) y)).
  lra.
Qed.
Lemma slice_from_last {A} (w : Z) (l : list A) :
  (0 < w)%Z -> (w <= Z.of_nat (length l))%Z ->
  exists older, l = older ++ slice_from (- w) l /\ Z.of_nat (length (slice_from (- w) l)) = w.
Proof.
  intros Hw Hlen. unfold slice_from.
  replace (- w <? 0)%Z with true by (symmetry; apply Z.ltb_lt; lia).
  rewrite Z.max_r by lia.
  exists (firstn (Z.to_nat (Z.of_nat (length l) + - w)) l). split.
  - symmetry. apply firstn_skipn.
  - rewrite length_skipn. lia.
Qed.

Lemma arange_length (a b : Z) : length (arange a b) = Z.to_nat (b - a).
Proof. unfold arange. rewrite length_map, length_seq. reflexivity. Qed.

Lemma arange_nth (a b : Z) (k : nat) :
  (k < Z.to_nat (b - a))%nat -> nth k (arange a b) 0 = inject_Z (a + Z.of_nat k).
Proof.
  intro Hk. unfold arange.
  rewrite (nth_indep _ 0 ((fun k => inject_Z (a + Z.of_nat k)) 0%nat))
    by (rewrite length_map, length_seq; exact Hk).
  rewrite (map_nth (fun k => inject_Z (a + Z.of_nat k))), seq_nth by exact Hk.
  reflexivity.
Qed.

Lemma predict_ok (m : model) (X : list Q) :
  X <> [] -> predict m X = Ok (map (fun x => x * coef_ m + intercept_ m) X).
Proof. destruct X; [congruence|reflexivity]. Qed.

Lemma fit_ok (X y : list Q) :
  X <> [] -> exists m, fit X y = Ok m.
Proof. destruct X; [congruence|]. intros _. eexists. reflexivity. Qed.

Lemma arange_nonempty (a b : Z) : (a < b)%Z -> arange a b <> [].
Proof.
  intros H E. apply (f_equal (@length Q)) in E. rewrite arange_length in E. cbn in E. lia.
Qed.

Lemma forecast_alerts_lower (th : AlertThresholds) (preds : list Q) :
  forall i, Forall (fun h => (i < h)%Z) (map fa_hours (forecast_alerts th i preds)).
Proof.
  induction preds as [|p preds IH]; intro i; cbn [forecast_alerts]; [constructor|].
  rewrite map_app. apply Forall_app. split.
  - destruct (Qltb p _); [|destruct (Qgtb p _)]; cbn; repeat constructor; lia.
  - eapply Forall_impl; [|apply (IH (i + 1)%Z)]. cbn. intros; lia.
Qed.

Lemma forecast_alerts_sorted (th : AlertThresholds) (preds : list Q) :
  forall i, StronglySorted Z.lt (map fa_hours (forecast_alerts th i preds)).
Proof.
  induction preds as [|p preds IH]; intro i; cbn [forecast_alerts]; [constructor|].
  pose proof (forecast_alerts_lower th preds (i + 1)) as Hlow.
  destruct (Qltb p _); [|destruct (Qgtb p _)]; cbn [app map fa_hours];
    try apply IH; constructor; try apply IH; exact Hlow.
Qed.

Lemma forecast_alerts_breach (th : AlertThresholds) (preds : list Q) :
  forall i a, In a (forecast_alerts th i preds) <-> breach th i preds a.
Proof.
  induction preds as [|p preds IH]; intros i a; cbn [forecast_alerts].
  - split; [intros []|]. intros (k & Hk & _). cbn in Hk. lia.
  - rewrite in_app_iff, IH. split.
    + intros [Hin | (k & Hk & Hh & Hp & Hc)].
      * exists 0%nat. cbn [nth length].
        destruct (Qltb p (hypoglycemia th)) eqn:E1;
          [|destruct (Qgtb p (severe_hyperglycemia th)) eqn:E2];
          cbn in Hin; [| |contradiction];
          destruct Hin as [<-|[]]; cbn [fa_hours fa_pred fa_kind];
          reflect_cmp; repeat split; try lia.
        -- left. split; [reflexivity|assumption].
        -- right. split; [reflexivity|]. split; [lra|assumption].
      * exists (S k). cbn [nth length]. repeat split; try lia; assumption.
    + intros (k & Hk & Hh & Hp & Hc). destruct k as [|k]; cbn [nth length] in *.
      * left. destruct a as [kind h v]. cbn [fa_hours fa_pred fa_kind] in *. subst h v.
        replace (i + Z.of_nat 0 + 1)%Z with (i + 1)%Z by lia.
        destruct Hc as [[-> Hc] | [-> [Hn Hc]]].
        -- apply Qltb_lt in Hc. rewrite Hc. left. reflexivity.
        -- destruct (Qltb p (hypoglycemia th)) eqn:E1; [apply Qltb_lt in E1; contradiction|].
           apply Qgtb_gt in Hc. rewrite Hc. left. reflexivity.
      * right. exists k. repeat split; try lia; assumption.
Qed.

Lemma forecast_last_window :
  forall (hours : Z) (s : Monitor),
    let ws := window_size (prediction_settings (config s)) in
    let th := thresholds_of s in
    (0 < ws)%Z ->
    (ws <= Z.of_nat (length (data_blood_glucose s)))%Z ->
    (0 < hours)%Z ->
    exists (m : model) (predictions : list Q),
      let w := glucose_window s in
      let lines := forecast_alerts th 0 predictions in
      (exists older, data_blood_glucose s = older ++ w) /\
      Z.of_nat (length w) = ws /\
      fit (arange 0 ws) w = Ok m /\
      (forall a' b' : Q,
          squared_error (coef_ m) (intercept_ m) (arange 0 ws) w
          <= squared_error a' b' (arange 0 ws) w) /\
      forecast_predictions hours s = Ok predictions /\
      Z.of_nat (length predictions) = hours /\
      (forall k : nat, (k < length predictions)%nat ->
          nth k predictions 0 = inject_Z (ws + Z.of_nat k) * coef_ m + intercept_ m) /\
      predict_glucose_trend hours s =
        Ok (match lines with [] => NoAnomaly | _ :: _ => Anomalies lines end) /\
      StronglySorted Z.lt (map fa_hours lines) /\
      (forall a : ForecastAlert, In a lines <-> breach th 0 predictions a).
Proof.
  intros hours s ws th Hws Hlen Hh.
  destruct (slice_from_last ws (data_blood_glucose s) Hws Hlen) as (older & Hold & Hwlen).
  fold ws in Hold, Hwlen. change (slice_from (- ws) (data_blood_glucose s))
    with (glucose_window s) in Hold, Hwlen.
  destruct (fit_ok (arange 0 ws) (glucose_window s)) as [m Hm];
    [apply arange_nonempty; lia|].
  assert (Hpred : forecast_predictions hours s =
                  Ok (map (fun x => x * coef_ m + intercept_ m) (arange ws (ws + hours)))).
  { unfold forecast_predictions. rewrite Hwlen, Hm.
    apply predict_ok, arange_nonempty. lia. }
  exists m, (map (fun x => x * coef_ m + intercept_ m) (arange ws (ws + hours))).
  cbn zeta.
  assert (Hl : length (arange ws (ws + hours)) = Z.to_nat hours).
  { rewrite arange_length. f_equal. lia. }
  split; [exists older; exact Hold|].
  split; [exact Hwlen|].
  split; [exact Hm|].
  split.
  { apply fit_least_squares; [|exact Hm]. rewrite arange_length. lia. }
  split; [exact Hpred|].
  split; [rewrite length_map, Hl; lia|].
  split.
  { intros k Hk. rewrite length_map, Hl in Hk.
    rewrite (nth_indep _ 0 ((fun x => x * coef_ m + intercept_ m) 0))
      by (rewrite length_map, Hl; exact Hk).
    rewrite (map_nth (fun x => x * coef_ m + intercept_ m)).
    rewrite arange_nth by (replace (ws + hours - ws)%Z with hours by lia; exact Hk).
    reflexivity. }
  split.
  { unfold predict_glucose_trend. fold ws.
    replace (Z.of_nat (length (data_blood_glucose s)) <? ws)%Z with false
      by (symmetry; apply Z.ltb_ge; lia).
    rewrite Hpred. fold th.
    destruct (forecast_alerts th 0 _); reflexivity. }
  split; [apply forecast_alerts_sorted|].
  intro a. apply forecast_alerts_breach.
Qed.

(** ** Forecast *)

(** With a positive window size and horizon the forecast never raises. *)
Lemma predict_glucose_trend_total (hours : Z) (s : Monitor) :
  (0 < window_size (prediction_settings (config s)))%Z ->
  (0 < hours)%Z ->
  exists f, predict_glucose_trend hours s = Ok f.
Proof.
  intros Hws Hh.
  destruct (Z.ltb_spec (Z.of_nat (length (data_blood_glucose s)))
              (window_size (prediction_settings (config s)))) as [Hlt|Hge].
  - exists InsufficientData. unfold predict_glucose_trend.
    apply Z.ltb_lt in Hlt. rewrite Hlt. reflexivity.
  - destruct (forecast_last_window hours s Hws Hge Hh) as (m & p & H).
    cbn zeta in H. destruct H as (_ & _ & _ & _ & _ & _ & _ & Hp & _).
    eexists. exact Hp.
Qed.

(** The readings of a monitor that has logged one measurement clamped to 400
    and then ten of 100. *)
Lemma drop_then_flat_readings :
  data_blood_glucose
    (run (new_monitor "Marie Dupont" 1 default_config)
         (Measure 0 0 10 "random" :: repeat (Measure 1 1 (-0.75) "random") 10))
  = (4000 # 10) :: repeat (1000 # 10) 10.
Proof. vm_compute. reflexivity. Qed.




(** C7. When the history holds fewer readings than [window_size], the
    forecast returns the insufficient-data text; it does not raise, and no
    prediction or alert line is computed. *)
Theorem predict_insufficient_data :
  forall (hours : Z) (s : Monitor),
    (Z.of_nat (length (data_blood_glucose s))
     < window_size (prediction_settings (config s)))%Z ->
    predict_glucose_trend hours s = Ok InsufficientData.
Proof.
  intros hours s H. unfold predict_glucose_trend.
  apply Z.ltb_lt in H. rewrite H. reflexivity.
Qed.

(** The theorem on a monitor with three readings and the default window of
    10. *)
Lemma predict_insufficient_data_witness :
  predict_glucose_trend 4
    (run (new_monitor "Marie Dupont" 1 default_config)
         (repeat (Measure 1 1 (-0.75) "random") 3))
  = Ok InsufficientData.
Proof.
  apply predict_insufficient_data. vm_compute. reflexivity.
Defined.

(** ** Report *)

(** C8. On an empty query result the report is the no-data text: no
    statistics, episode counts or forecast are computed. *)
Theorem report_without_data :
  forall (hours : Z) (s : Monitor),
    generate_diabetes_report hours [] s = Ok NoGlucoseData.
Proof. reflexivity. Qed.

Lemma Qltb_dec (x y : Q) : Qltb x y = if Qlt_le_dec x y then true else false.
Proof.
  destruct (Qlt_le_dec x y) as [H|H].
  - apply Qltb_lt. exact H.
  - apply Qltb_ge. exact H.
Qed.

Lemma count_below_strictly (t : Q) (df : list GlucoseRow) :
  count_below t df = length (filter (strictly_below t) df).
Proof.
  unfold count_below. f_equal. apply filter_ext. intro r. apply Qltb_dec.
Qed.

Lemma count_above_strictly (t : Q) (df : list GlucoseRow) :
  count_above t df = length (filter (strictly_above t) df).
Proof.
  unfold count_above. f_equal. apply filter_ext. intro r. apply Qltb_dec.
Qed.

Lemma filter_length_mono {A : Type} (f g : A -> bool) (l : list A) :
  (forall x, f x = true -> g x = true) ->
  (length (filter f l) <= length (filter g l))%nat.
Proof.
  intro Himp. induction l as [|x l IH]; cbn [filter]; [lia|].
  destruct (f x) eqn:Ef.
  - rewrite (Himp x Ef). cbn [length]. lia.
  - destruct (g x); cbn [length]; lia.
Qed.

Lemma count_above_antitone (t1 t2 : Q) (df : list GlucoseRow) :
  t1 <= t2 -> (count_above t2 df <= count_above t1 df)%nat.
Proof.
  intro Hle. unfold count_above. apply filter_length_mono.
  intros r H. reflect_cmp. apply Qgtb_gt. lra.
Qed.

(** C9 as the specification words it fails: under a configuration whose
    severe threshold (100) lies below its hyperglycemia threshold (180), one
    reading of 150 is counted as a severe episode and not as a hyperglycemia
    episode. *)
Lemma severe_count_can_exceed_hyper_count :
  let s := run (new_monitor "Marie Dupont" 1 misordered_config)
               [Measure 0 0 (-0.125) "random"] in
  map gm_blood_glucose (glucose_measurements s) = [1500 # 10] /\
  exists r : Report,
    generate_diabetes_report 24 (glucose_measurements s) s = Ok (FullReport r) /\
    severe_hyper_episodes r = 1%nat /\
    hyper_episodes r = 0%nat /\
    ~ (severe_hyper_episodes r <= hyper_episodes r)%nat.
Proof.
  cbn zeta. split; [vm_compute; reflexivity|].
  eexists. split; [vm_compute; reflexivity|].
  cbn [severe_hyper_episodes hyper_episodes].
  repeat split; lia.
Qed.

(** C9, amended. For a non-empty query result, every report produced counts
    as hypoglycemia episodes the readings strictly below the hypoglycemia
    threshold, as hyperglycemia episodes all the readings strictly above the
    hyperglycemia threshold, and as severe episodes the readings strictly
    above the severe threshold: three independent filters.  The severe count
    is at most the hyperglycemia count whenever the hyperglycemia threshold
    is at most the severe one.  With a positive window size the report is
    produced. *)
Theorem report_episode_counts :
  forall (hours : Z) (df : list GlucoseRow) (s : Monitor),
    df <> [] ->
    let th := thresholds_of s in
    (forall r : Report,
        generate_diabetes_report hours df s = Ok (FullReport r) ->
        hypo_episodes r = length (filter (strictly_below (hypoglycemia th)) df) /\
        hyper_episodes r = length (filter (strictly_above (hyperglycemia th)) df) /\
        severe_hyper_episodes r =
          length (filter (strictly_above (severe_hyperglycemia th)) df) /\
        (hyperglycemia th <= severe_hyperglycemia th ->
         (severe_hyper_episodes r <= hyper_episodes r)%nat)) /\
    ((0 < window_size (prediction_settings (config s)))%Z ->
     exists r : Report, generate_diabetes_report hours df s = Ok (FullReport r)).
Proof.
  intros hours df s Hne th. destruct df as [|row df]; [congruence|]. split.
  - intros r Hr. unfold generate_diabetes_report in Hr.
    destruct (predict_glucose_trend default_hours s) as [f|e]; [|discriminate].
    injection Hr as <-. cbn [hypo_episodes hyper_episodes severe_hyper_episodes].
    fold th. rewrite count_below_strictly, !count_above_strictly.
    repeat split. intro Hle.
    rewrite <- !count_above_strictly. apply count_above_antitone. exact Hle.
  - intro Hws.
    destruct (predict_glucose_trend_total default_hours s Hws) as [f Hf];
      [reflexivity|].
    unfold generate_diabetes_report. rewrite Hf. eexists. reflexivity.
Qed.

(** The theorem on the first measurement of a fresh monitor under the default
    configuration, a reading of 150: the report is produced and its three
    counts are 0. *)
Lemma report_episode_counts_witness :
  let s := run (new_monitor "Marie Dupont" 1 default_config)
               [Measure 0 0 (-0.125) "random"] in
  exists r : Report,
    generate_diabetes_report 24 (glucose_measurements s) s = Ok (FullReport r).
Proof.
  intro s.
  assert (Hne : glucose_measurements s <> []) by (vm_compute; discriminate).
  assert (Hws : (0 < window_size (prediction_settings (config s)))%Z)
    by (vm_compute; reflexivity).
  exact (proj2 (report_episode_counts 24 (glucose_measurements s) s Hne) Hws).
Defined.

(** ** The configured horizon *)

Lemma forecast_predictions_length (hours : Z) (s : Monitor) (p : list Q) :
  forecast_predictions hours s = Ok p -> Z.of_nat (length p) = hours.
Proof.
  unfold forecast_predictions.
  destruct (fit _ _) as [m|e]; [|discriminate].
  set (n := Z.of_nat (length (glucose_window s))).
  destruct (arange n (n + hours)) as [|x X] eqn:E; [discriminate|].
  assert (HL : length (x :: X) = Z.to_nat (n + hours - n))
    by (rewrite <- E; apply arange_length).
  unfold predict. intro H. injection H as <-.
  cbn [length map] in *. rewrite length_map. lia.
Qed.

(** C10. Two configurations that differ only in [forecast_hours] give the
    same predictions, the same forecast and the same report on the same
    monitor.  The horizon is the [hours] argument: a forecast that succeeds
    has [hours] predictions, and the report embeds the forecast for the
    default of 4 hours. *)
Theorem forecast_hours_is_ignored :
  forall (hours report_hours : Z) (df : list GlucoseRow) (s : Monitor) (c1 c2 : Config),
    differ_only_in_forecast_hours c1 c2 ->
    let s1 := set_config c1 s in
    let s2 := set_config c2 s in
    forecast_predictions hours s1 = forecast_predictions hours s2 /\
    predict_glucose_trend hours s1 = predict_glucose_trend hours s2 /\
    generate_diabetes_report report_hours df s1 = generate_diabetes_report report_hours df s2 /\
    (forall p : list Q,
        forecast_predictions hours s1 = Ok p -> Z.of_nat (length p) = hours) /\
    (forall r : Report,
        generate_diabetes_report report_hours df s1 = Ok (FullReport r) ->
        predict_glucose_trend 4 s1 = Ok (rp_prediction r)).
Proof.
  intros hours report_hours df s c1 c2 (Hth & Htr & Hem & Hws) s1 s2.
  assert (Hp : forall h, forecast_predictions h s1 = forecast_predictions h s2).
  { intro h. unfold forecast_predictions, glucose_window, s1, s2. cbn [config set_config].
    rewrite Hws. reflexivity. }
  assert (Hf : forall h, predict_glucose_trend h s1 = predict_glucose_trend h s2).
  { intro h. unfold predict_glucose_trend. rewrite Hp.
    unfold thresholds_of, s1, s2. cbn [config set_config data_blood_glucose].
    rewrite Hws, Hth. reflexivity. }
  split; [apply Hp|]. split; [apply Hf|]. split; [|split].
  - unfold generate_diabetes_report. rewrite Hf.
    unfold thresholds_of, s1, s2. cbn [config set_config patient_name diabetes_type].
    rewrite Hth, Htr. reflexivity.
  - apply forecast_predictions_length.
  - intros r Hr. unfold generate_diabetes_report in Hr.
    destruct df as [|row df]; [discriminate|].
    change default_hours with 4%Z in Hr.
    destruct (predict_glucose_trend 4 s1) as [f|e]; [|discriminate].
    injection Hr as <-. reflexivity.
Qed.

(** The theorem on the default configuration and the same configuration with
    [forecast_hours] set to 24, for a monitor with eleven readings. *)
Lemma forecast_hours_is_ignored_witness :
  let s := run (new_monitor "Marie Dupont" 1 default_config)
               (Measure 0 0 10 "random" :: repeat (Measure 1 1 (-0.75) "random") 10) in
  differ_only_in_forecast_hours default_config (with_forecast_hours 24 default_config) /\
  predict_glucose_trend 4 (set_config default_config s) =
  predict_glucose_trend 4 (set_config (with_forecast_hours 24 default_config) s).
Proof.
  intro s.
  assert (H : differ_only_in_forecast_hours default_config
                (with_forecast_hours 24 default_config))
    by (repeat split; reflexivity).
  split; [exact H|].
  exact (proj1 (proj2 (forecast_hours_is_ignored 4 24 [] s _ _ H))).
Defined.

(* ================================================================== *)
(** * Further properties *)

(** ** Rounding and the simulated value *)

Lemma round_half_even_lower (k : Z) (q : Q) :
  inject_Z k <= q -> (k <= round_half_even q)%Z.
Proof.
  unfold Qle, round_half_even. cbn [inject_Z Qnum Qden]. intro H.
  set (n := Qnum q) in *. set (d := Zpos (Qden q)) in *.
  assert (Hd : (0 < d)%Z) by (unfold d; lia).
  assert (Hf : (k <= n / d)%Z) by (apply Z.div_le_lower_bound; lia).
  destruct (2 * (n mod d) ?= d)%Z; [destruct (Z.even (n / d))| |]; lia.
Qed.

Lemma round_half_even_upper (k : Z) (q : Q) :
  q <= inject_Z k -> (round_half_even q <= k)%Z.
Proof.
  unfold Qle, round_half_even. cbn [inject_Z Qnum Qden]. intro H.
  set (n := Qnum q) in *. set (d := Zpos (Qden q)) in *.
  assert (Hd : (0 < d)%Z) by (unfold d; lia).
  pose proof (Z.div_mod n d ltac:(lia)) as Hdm.
  pose proof (Z.mod_pos_bound n d Hd) as Hr.
  assert (Hf : (n / d <= k)%Z) by nia.
  destruct (Z.eq_dec (n / d) k) as [E|E].
  - assert (Hr0 : (n mod d = 0)%Z) by nia.
    rewrite Hr0. change (2 * 0 ?= d)%Z with Lt. cbv iota. lia.
  - destruct (2 * (n mod d) ?= d)%Z; [destruct (Z.even (n / d))| |]; lia.
Qed.

Lemma round_half_even_error (q : Q) :
  q - (1 # 2) <= inject_Z (round_half_even q) /\
  inject_Z (round_half_even q) <= q + (1 # 2).
Proof.
  unfold round_half_even.
  set (n := Qnum q). set (d := Zpos (Qden q)).
  assert (Hd : (0 < d)%Z) by (unfold d; lia).
  pose proof (Z.div_mod n d ltac:(lia)) as Hdm.
  pose proof (Z.mod_pos_bound n d Hd) as Hr.
  assert (Hq : q == inject_Z n / inject_Z d).
  { unfold n, d. rewrite <- Qmake_Qdiv. destruct q; reflexivity. }
  assert (HdQ : 0 < inject_Z d) by (change 0 with (inject_Z 0); rewrite <- Zlt_Qlt; exact Hd).
  assert (Hkey : forall r : Z,
            (2 * (r * d) <= d + 2 * n)%Z -> (2 * n <= d + 2 * (r * d))%Z ->
            q - (1 # 2) <= inject_Z r /\ inject_Z r <= q + (1 # 2)).
  { intros r H1 H2.
    rewrite Zle_Qle in H1, H2.
    rewrite !inject_Z_plus, !inject_Z_mult in H1, H2.
    assert (Hn : q * inject_Z d == inject_Z n) by (rewrite Hq; field; lra).
    rewrite <- Hn in H1, H2.
    change (inject_Z 2) with 2 in H1, H2.
    split; nra. }
  clear Hq HdQ. clearbody n d.
  set (f := (n / d)%Z) in *. set (r := (n mod d)%Z) in *. clearbody f r.
  destruct (Z.compare_spec (2 * r) d) as [C|C|C].
  - destruct (Z.even f); apply Hkey; clear Hkey; lia.
  - apply Hkey; clear Hkey; lia.
  - apply Hkey; clear Hkey; lia.
Qed.

Lemma tenths_le (a b : Z) : a # 10 <= b # 10 <-> (a <= b)%Z.
Proof. unfold Qle. simpl. lia. Qed.

Lemma tenths_scale (a : Z) : a # 10 == inject_Z a * (1 # 10).
Proof. unfold Qeq. simpl. lia. Qed.

Lemma tenths_inject (a : Z) (x : Q) : inject_Z a <= x * 10 <-> a # 10 <= x.
Proof.
  rewrite (tenths_scale a). split; intro H; lra.
Qed.

Lemma tenths_inject_upper (a : Z) (x : Q) : x * 10 <= inject_Z a <-> x <= a # 10.
Proof.
  rewrite (tenths_scale a). split; intro H; lra.
Qed.

(** Rounding to one decimal keeps a value on the same side of a number of
    tenths. *)
Lemma round1_lower (a : Z) (x : Q) : a # 10 <= x -> a # 10 <= round1 x.
Proof.
  intro H. unfold round1. apply tenths_le, round_half_even_lower, tenths_inject, H.
Qed.

Lemma round1_upper (a : Z) (x : Q) : x <= a # 10 -> round1 x <= a # 10.
Proof.
  intro H. unfold round1. apply tenths_le, round_half_even_upper, tenths_inject_upper, H.
Qed.

Lemma round1_error (x : Q) : x - (1 # 20) <= round1 x /\ round1 x <= x + (1 # 20).
Proof.
  destruct (round_half_even_error (x * 10)) as [H1 H2].
  unfold round1.
  rewrite tenths_scale. split; lra.
Qed.

Lemma simulated_value_bounds (z : Q) (context : string) (dtype : Z) :
  50 <= simulated_value z context dtype /\ simulated_value z context dtype <= 400.
Proof.
  unfold simulated_value.
  destruct (if (context =? "fasting")%string then _ else _) as [base_value variability].
  unfold py_max, py_min.
  destruct (Qltb (normalvariate z base_value variability) 400) eqn:E1;
    [destruct (Qgtb (normalvariate z base_value variability) 50) eqn:E2
    |destruct (Qgtb 400 50) eqn:E2];
    reflect_cmp; split; lra.
Qed.

Lemma rounded_simulated_value (z : Q) (context : string) (dtype : Z) :
  let drawn := simulated_value z context dtype in
  let v := round1 drawn in
  stored_reading v /\
  50 <= v /\ v <= 400 /\
  drawn - (1 # 20) <= v /\ v <= drawn + (1 # 20).
Proof.
  cbn zeta.
  destruct (simulated_value_bounds z context dtype) as [Hlo Hhi].
  assert (H1 : 500 # 10 <= round1 (simulated_value z context dtype))
    by (apply round1_lower; lra).
  assert (H2 : round1 (simulated_value z context dtype) <= 4000 # 10)
    by (apply round1_upper; lra).
  destruct (round1_error (simulated_value z context dtype)) as [H3 H4].
  split; [|split; [|split; [|split]]]; try assumption; try lra.
  exists (round_half_even (simulated_value z context dtype * 10)).
  split; [reflexivity|].
  unfold round1 in H1, H2.
  apply (proj1 (tenths_le _ _)) in H1. apply (proj1 (tenths_le _ _)) in H2. lia.
Qed.

(** X1. Whatever the deviate drawn, the context and the type of diabetes, the
    value [simulate_glucose_measurement] returns is a number of tenths between
    50.0 and 400.0, and it lies within 0.05 of the clamped draw. *)
Theorem simulated_reading_bounds :
  forall (z : Q) (context : string) (s : Monitor),
    let v := fst (simulate_glucose_measurement z context s) in
    let drawn := simulated_value z context (diabetes_type s) in
    stored_reading v /\
    50 <= v /\ v <= 400 /\
    drawn - (1 # 20) <= v /\ v <= drawn + (1 # 20).
Proof.
  intros z context s.
  exact (rounded_simulated_value z context (diabetes_type s)).
Qed.

(** ** What a run of operations keeps *)

Lemma check_glucose_alerts_config (now : Z) (v : pyfloat) (s : Monitor) :
  let s' := snd (check_glucose_alerts now v s) in
  config s' = config s /\ data_timestamp s' = data_timestamp s.
Proof.
  cbn zeta. rewrite check_glucose_alerts_unfold. cbn [snd].
  destruct (flt v _); [|destruct (fgt v (severe_hyperglycemia _));
                         [|destruct (fgt v (hyperglycemia _))]];
    split; reflexivity.
Qed.

Lemma step_config (s : Monitor) (e : Event) : config (step s e) = config s.
Proof.
  destruct e as [now now_alert z context | now ty sev | now v]; cbn [step].
  - rewrite log_glucose_measurement_unfold. cbn [snd].
    match goal with
    | |- context [check_glucose_alerts ?n ?x ?s0] =>
        rewrite (proj1 (check_glucose_alerts_config n x s0))
    end.
    reflexivity.
  - rewrite log_symptoms_unfold. cbn [snd].
    destruct (ty =? "hypo")%string; destruct (Qgeb _ _); reflexivity.
  - apply check_glucose_alerts_config.
Qed.

Lemma run_config (es : list Event) : forall s, config (run s es) = config s.
Proof.
  induction es as [|e es IH]; intro s; [reflexivity|].
  change (run s (e :: es)) with (run (step s e) es).
  rewrite IH. apply step_config.
Qed.

Lemma run_app (s : Monitor) (es1 es2 : list Event) :
  run s (es1 ++ es2) = run (run s es1) es2.
Proof. unfold run. apply fold_left_app. Qed.

Lemma expected_readings_length (dtype : Z) (es : list Event) :
  length (expected_readings dtype es) = count_measures es.
Proof.
  unfold count_measures.
  induction es as [|[now now_alert z context | now ty sev | now v] es IH];
    cbn [expected_readings filter length]; auto.
Qed.

Lemma expected_readings_stored (dtype : Z) (es : list Event) :
  Forall (fun v => stored_reading v /\ 50 <= v /\ v <= 400) (expected_readings dtype es).
Proof.
  induction es as [|[now now_alert z context | now ty sev | now v] es IH];
    cbn [expected_readings]; auto.
  constructor; [|exact IH].
  pose proof (rounded_simulated_value z context dtype) as H. cbn zeta in H. tauto.
Qed.

(** X2. Every reading a fresh monitor holds after any sequence of operations,
    in memory and in the measurement table, is a number of tenths between
    50.0 and 400.0. *)
Theorem stored_readings_in_range :
  forall (name : string) (dtype : Z) (c : Config) (es : list Event),
    let s := run (new_monitor name dtype c) es in
    Forall (fun v => stored_reading v /\ 50 <= v /\ v <= 400) (data_blood_glucose s) /\
    Forall (fun v => stored_reading v /\ 50 <= v /\ v <= 400)
      (map gm_blood_glucose (glucose_measurements s)).
Proof.
  intros name dtype c es s.
  destruct (run_measurements es (new_monitor name dtype c)) as (H1 & _ & H3 & _).
  fold s in H1, H3. cbn [new_monitor data_blood_glucose glucose_measurements
                          diabetes_type map app] in H1, H3.
  rewrite H1, H3. split; apply expected_readings_stored.
Qed.




(** X4. Counting from a fresh monitor, the forecast answers with the
    insufficient-data text exactly as long as fewer than [window_size]
    measurements have been logged; symptom reports and direct alert checks do
    not count. *)
Theorem forecast_available_after_window :
  forall (name : string) (dtype : Z) (c : Config) (es : list Event) (hours : Z),
    predict_glucose_trend hours (run (new_monitor name dtype c) es) = Ok InsufficientData
    <-> (Z.of_nat (count_measures es) < window_size (prediction_settings c))%Z.
Proof.
  intros name dtype c es hours.
  set (s := run (new_monitor name dtype c) es).
  assert (Hlen : length (data_blood_glucose s) = count_measures es).
  { destruct (run_measurements es (new_monitor name dtype c)) as (H1 & _).
    fold s in H1. cbn [new_monitor data_blood_glucose diabetes_type app] in H1.
    rewrite H1. apply expected_readings_length. }
  assert (Hc : config s = c) by (unfold s; rewrite run_config; reflexivity).
  unfold predict_glucose_trend. rewrite Hlen, Hc.
  destruct (Z.ltb_spec (Z.of_nat (count_measures es)) (window_size (prediction_settings c)))
    as [Hlt|Hge].
  - tauto.
  - split; [|lia]. intro H. exfalso.
    destruct (forecast_predictions hours s) as [p|e]; [|discriminate].
    destruct (forecast_alerts (thresholds_of s) 0 p); discriminate.
Qed.

(** ** The stored trend against the stored readings *)

Lemma tenths_plus (p c : Z) : (p + 10 * c) # 10 == (p # 10) + inject_Z c.
Proof.
  unfold Qeq, Qplus, inject_Z. cbn [Qnum Qden]. lia.
Qed.

Lemma round1_lower_shift (p c : Z) (x : Q) :
  (p # 10) + inject_Z c <= x -> (p # 10) + inject_Z c <= round1 x.
Proof.
  rewrite <- tenths_plus. apply round1_lower.
Qed.

Lemma round1_upper_shift (p c : Z) (x : Q) :
  x <= (p # 10) + inject_Z c -> round1 x <= (p # 10) + inject_Z c.
Proof.
  rewrite <- tenths_plus. apply round1_upper.
Qed.

Lemma rounded_trend (v : Q) (p : Z) (history : list Q) :
  let prev := p # 10 in
  let t := glucose_trend v (history ++ [prev]) in
  let d := round1 v - prev in
  (t = StrongUp -> 15 <= d) /\
  (t = Up -> 5 <= d /\ d <= 15) /\
  (t = Stable -> -5 <= d /\ d <= 5) /\
  (t = Down -> -15 <= d /\ d <= -5) /\
  (t = StrongDown -> d <= -15).
Proof.
  cbn zeta.
  destruct (glucose_trend_by_difference v (p # 10) history) as (H1 & H2 & H3 & H4 & H5).
  pose proof (round1_lower_shift p 15 v) as L15.
  pose proof (round1_lower_shift p 5 v) as L5.
  pose proof (round1_lower_shift p (-5) v) as Lm5.
  pose proof (round1_lower_shift p (-15) v) as Lm15.
  pose proof (round1_upper_shift p 15 v) as U15.
  pose proof (round1_upper_shift p 5 v) as U5.
  pose proof (round1_upper_shift p (-5) v) as Um5.
  pose proof (round1_upper_shift p (-15) v) as Um15.
  change (inject_Z 15) with 15 in *. change (inject_Z 5) with 5 in *.
  change (inject_Z (-5)) with (-5) in *. change (inject_Z (-15)) with (-15) in *.
  split; [|split; [|split; [|split]]]; intro Ht.
  - apply H1 in Ht. assert (Hx : (p # 10) + 15 <= v) by lra. apply L15 in Hx. lra.
  - apply H2 in Ht.
    assert (Hx : (p # 10) + 5 <= v) by lra. apply L5 in Hx.
    assert (Hy : v <= (p # 10) + 15) by lra. apply U15 in Hy.
    split; lra.
  - apply H5 in Ht.
    assert (Hx : (p # 10) + -5 <= v) by lra. apply Lm5 in Hx.
    assert (Hy : v <= (p # 10) + 5) by lra. apply U5 in Hy.
    split; lra.
  - apply H4 in Ht.
    assert (Hx : (p # 10) + -15 <= v) by lra. apply Lm15 in Hx.
    assert (Hy : v <= (p # 10) + -5) by lra. apply Um5 in Hy.
    split; lra.
  - apply H3 in Ht. assert (Hx : v <= (p # 10) + -15) by lra. apply Um15 in Hx. lra.
Qed.

Lemma logged_trend_boundary (now now_alert : Z) (z : Q) (context : string)
  (s : Monitor) (history : list Q) (p : Z) :
  data_blood_glucose s = history ++ [p # 10] ->
  let r := fst (log_glucose_measurement now now_alert z context s) in
  let d := fst r - (p # 10) in
  (snd r = StrongUp -> 15 <= d) /\
  (snd r = Up -> 5 <= d /\ d <= 15) /\
  (snd r = Stable -> -5 <= d /\ d <= 5) /\
  (snd r = Down -> -15 <= d /\ d <= -5) /\
  (snd r = StrongDown -> d <= -15) /\
  (glucose_trend (fst r) (data_blood_glucose s) = snd r \/
   d == 15 \/ d == 5 \/ d == -5 \/ d == -15).
Proof.
  intros Hdata. cbn zeta. rewrite log_glucose_measurement_unfold. cbn [fst snd].
  unfold simulate_glucose_measurement. cbn [fst snd]. rewrite Hdata.
  set (v := simulated_value z context (diabetes_type s)).
  destruct (rounded_trend v p history) as (R1 & R2 & R3 & R4 & R5).
  cbn zeta in R1, R2, R3, R4, R5.
  destruct (glucose_trend_by_difference (round1 v) (p # 10) history)
    as (G1 & G2 & G3 & G4 & G5).
  repeat (split; [assumption|]).
  destruct (glucose_trend v (history ++ [p # 10])) eqn:Et.
  - specialize (R1 eq_refl).
    destruct (Qlt_le_dec 15 (round1 v - (p # 10))) as [H|H].
    + left. apply G1. exact H.
    + right. left. lra.
  - destruct (R2 eq_refl) as [Ha Hb].
    destruct (Qlt_le_dec 5 (round1 v - (p # 10))) as [H|H].
    + left. apply G2. split; assumption.
    + right. right. left. lra.
  - left. apply G5. apply R3. reflexivity.
  - destruct (R4 eq_refl) as [Ha Hb].
    destruct (Qlt_le_dec (round1 v - (p # 10)) (-5)) as [H|H].
    + left. apply G4. split; assumption.
    + right. right. right. left. lra.
  - specialize (R5 eq_refl).
    destruct (Qlt_le_dec (round1 v - (p # 10)) (-15)) as [H|H].
    + left. apply G3. exact H.
    + right. right. right. right. lra.
Qed.

(** X5. When a measurement is logged after a stored reading (a number of
    tenths), the stored trend bounds the difference of the two stored
    readings: at least 15 for StrongUp, within 5 and 15 for Up, within -5 and
    5 for Stable, within -15 and -5 for Down, at most -15 for StrongDown.  So
    the trend recomputed from the two stored readings is the stored one unless
    their difference is exactly 15, 5, -5 or -15. *)
Theorem stored_trend_matches_up_to_boundary :
  forall (now now_alert : Z) (z : Q) (context : string)
         (s : Monitor) (history : list Q) (p : Z),
    data_blood_glucose s = history ++ [p # 10] ->
    let r := fst (log_glucose_measurement now now_alert z context s) in
    let d := fst r - (p # 10) in
    (snd r = StrongUp -> 15 <= d) /\
    (snd r = Up -> 5 <= d /\ d <= 15) /\
    (snd r = Stable -> -5 <= d /\ d <= 5) /\
    (snd r = Down -> -15 <= d /\ d <= -5) /\
    (snd r = StrongDown -> d <= -15) /\
    (glucose_trend (fst r) (data_blood_glucose s) = snd r \/
     d == 15 \/ d == 5 \/ d == -5 \/ d == -15).
Proof.
  intros now now_alert z context s history p H.
  exact (logged_trend_boundary now now_alert z context s history p H).
Qed.

(** The theorem on the second measurement of a monitor whose first reading is
    100.0: a draw of 115.04 is stored as 115.0 with StrongUp, a difference of
    exactly 15. *)
Lemma stored_trend_matches_up_to_boundary_witness :
  let s := run (new_monitor "Marie Dupont" 1 default_config) [Measure 0 0 (-0.75) "random"] in
  let r := fst (log_glucose_measurement 1 1 (-0.562) "random" s) in
  snd r = StrongUp /\ 15 <= fst r - (1000 # 10).
Proof.
  intros s r.
  assert (H : data_blood_glucose s = [] ++ [1000 # 10]) by (vm_compute; reflexivity).
  assert (Ht : snd r = StrongUp) by (vm_compute; reflexivity).
  split; [exact Ht|].
  exact (proj1 (stored_trend_matches_up_to_boundary 1 1 (-0.562) "random" s [] 1000 H) Ht).
Defined.

(** ** The display and the alert engine *)

Lemma measure_glucose_unfold (now now_alert : Z) (z : Q) (s : Monitor) :
  let vt := simulate_glucose_measurement z "random" s in
  measure_glucose now now_alert z s =
  ((vt, display_status (thresholds_of s) (fst vt)),
   snd (log_glucose_measurement now now_alert z "random" s)).
Proof.
  intro vt. unfold measure_glucose, bind, get, ret.
  pose proof (step_config s (Measure now now_alert z "random")) as Hc. cbn [step] in Hc.
  rewrite log_glucose_measurement_unfold in *. fold vt in Hc |- *. cbn [fst snd] in *.
  unfold thresholds_of. rewrite Hc. reflexivity.
Qed.

Lemma new_alerts_after (r : AlertRow) (s s1 : Monitor) :
  alerts s1 = alerts s -> new_alerts s (insert_alert r s1) = [r].
Proof.
  intro H. unfold new_alerts. cbn [alerts insert_alert]. rewrite H.
  rewrite skipn_app, skipn_all, Nat.sub_diag. reflexivity.
Qed.

Lemma new_alerts_none (s s1 : Monitor) :
  alerts s1 = alerts s -> new_alerts s s1 = [].
Proof. intro H. unfold new_alerts. rewrite H. apply skipn_all. Qed.

Lemma app_one_neq {A : Type} (l : list A) (x : A) : l ++ [x] <> l.
Proof.
  intro H. apply (f_equal (@length A)) in H. rewrite length_app in H. cbn in H. lia.
Qed.

(** X6. The status [measure_glucose] shows for a measurement names the alert
    that measurement raised: the hypoglycemia, severe or hyperglycemia status
    goes with exactly one new alert of that type, and the in-target status
    with no new alert; the colours are red, purple, orange and green. *)
Theorem display_agrees_with_alert :
  forall (now now_alert : Z) (z : Q) (s : Monitor),
    let r := measure_glucose now now_alert z s in
    let status := fst (snd (fst r)) in
    let colour := snd (snd (fst r)) in
    map al_alert_type (new_alerts s (snd r)) = status_alert_types status /\
    (status = StatusInTarget <-> alerts (snd r) = alerts s) /\
    colour = match status with
             | StatusHypoglycemia => "red"%string
             | StatusSevereHyperglycemia => "purple"%string
             | StatusHyperglycemia => "orange"%string
             | StatusInTarget => "green"%string
             end.
Proof.
  intros now now_alert z s. cbn zeta.
  rewrite measure_glucose_unfold. cbn [fst snd].
  rewrite log_glucose_measurement_unfold. cbn [fst snd].
  set (v := fst (simulate_glucose_measurement z "random" s)).
  set (t := snd (simulate_glucose_measurement z "random" s)).
  set (s1 := insert_glucose_measurement _ (append_measurement now v t s)).
  assert (Hal : alerts s1 = alerts s) by reflexivity.
  rewrite check_glucose_alerts_unfold. cbn [snd flt fgt].
  change (thresholds_of s1) with (thresholds_of s).
  unfold display_status.
  destruct (Qltb v (hypoglycemia (thresholds_of s))) eqn:E1;
    [|destruct (Qgtb v (severe_hyperglycemia (thresholds_of s))) eqn:E2;
      [|destruct (Qgtb v (hyperglycemia (thresholds_of s))) eqn:E3]];
    cbn [fst snd status_alert_types];
    rewrite ?(new_alerts_after _ s s1 Hal), ?(new_alerts_none s s1 Hal);
    (split; [reflexivity|]); (split; [|reflexivity]).
  4: { split; intros _; [exact Hal|reflexivity]. }
  all: split; intro H; [discriminate|];
    exfalso; cbn [alerts insert_alert] in H; rewrite Hal in H;
    exact (app_one_neq _ _ H).
Qed.

(** ** Live alerts against the report *)

Lemma count_alerts_app (ty : string) (l : list AlertRow) (a : AlertRow) :
  count_alerts ty (l ++ [a]) =
  (count_alerts ty l + if (al_alert_type a =? ty)%string then 1 else 0)%nat.
Proof.
  unfold count_alerts. rewrite filter_app, length_app. cbn [filter].
  destruct (al_alert_type a =? ty)%string; reflexivity.
Qed.

Lemma count_below_app (t : Q) (df : list GlucoseRow) (r : GlucoseRow) :
  count_below t (df ++ [r]) =
  (count_below t df + if Qltb (gm_blood_glucose r) t then 1 else 0)%nat.
Proof.
  unfold count_below. rewrite filter_app, length_app. cbn [filter].
  destruct (Qltb _ _); reflexivity.
Qed.

Lemma count_above_app (t : Q) (df : list GlucoseRow) (r : GlucoseRow) :
  count_above t (df ++ [r]) =
  (count_above t df + if Qgtb (gm_blood_glucose r) t then 1 else 0)%nat.
Proof.
  unfold count_above. rewrite filter_app, length_app. cbn [filter].
  destruct (Qgtb _ _); reflexivity.
Qed.

Lemma counts_agree_step (s : Monitor) (e : Event) :
  is_logged e = true -> counts_agree s -> counts_agree (step s e).
Proof.
  intros He (A & B & C). unfold counts_agree. cbn zeta.
  pose proof (step_config s e) as Hc.
  unfold thresholds_of in *. rewrite Hc.
  set (th := alert_thresholds (config s)) in *.
  destruct e as [now now_alert z context | now ty sev | now v]; [| |discriminate];
    cbn [step].
  - rewrite log_glucose_measurement_unfold. cbn [snd].
    set (v := fst (simulate_glucose_measurement z context s)).
    set (t := snd (simulate_glucose_measurement z context s)).
    set (row := {| gm_timestamp := now; gm_blood_glucose := v;
                   gm_measurement_context := context; gm_glucose_trend := t |}).
    rewrite check_glucose_alerts_unfold. cbn [snd flt fgt].
    change (thresholds_of (insert_glucose_measurement row (append_measurement now v t s)))
      with th.
    destruct (Qltb v (hypoglycemia th)) eqn:E1;
      destruct (Qgtb v (severe_hyperglycemia th)) eqn:E2;
      destruct (Qgtb v (hyperglycemia th)) eqn:E3;
      cbn [alerts glucose_measurements insert_alert insert_glucose_measurement
           append_measurement];
      rewrite ?count_alerts_app, ?count_below_app, ?count_above_app;
      cbn [gm_blood_glucose row al_alert_type glucose_alert_row];
      rewrite ?E1, ?E2, ?E3;
      reflect_cmp;
      (split; [cbn; lia|split]); intros;
      try (exfalso; lra);
      cbn; try (specialize (B ltac:(assumption)));
      try (specialize (C ltac:(assumption) ltac:(assumption))); lia.
  - rewrite log_symptoms_unfold. cbn [snd].
    destruct (ty =? "hypo")%string; destruct (Qgeb _ _);
      cbn [alerts glucose_measurements insert_alert append_hypo_symptoms
           append_hyper_symptoms];
      rewrite ?count_alerts_app; cbn [al_alert_type glucose_alert_row];
      cbn; rewrite ?Nat.add_0_r; auto.
Qed.

Lemma counts_agree_run (es : list Event) :
  forall s, forallb is_logged es = true -> counts_agree s -> counts_agree (run s es).
Proof.
  induction es as [|e es IH]; intros s Hes Hs; [exact Hs|].
  cbn [forallb] in Hes. apply andb_true_iff in Hes. destruct Hes as [He Hes].
  change (run s (e :: es)) with (run (step s e) es).
  apply IH; [exact Hes|]. apply counts_agree_step; assumption.
Qed.

(** X7. On a monitor that started fresh and whose alerts were raised only by
    logged measurements and symptom reports, the alert table and the report
    agree: the report over the whole measurement table counts as many
    hypoglycemia episodes as there are hypoglycemia alerts; when the
    hypoglycemia threshold is at most the severe one, as many severe episodes
    as severe alerts; and when the three thresholds are in order, its
    hyperglycemia count is the number of hyperglycemia alerts plus the number
    of severe alerts. *)
Theorem alerts_match_report_counts :
  forall (name : string) (dtype : Z) (c : Config) (es : list Event),
    forallb is_logged es = true ->
    let s := run (new_monitor name dtype c) es in
    let th := alert_thresholds c in
    let n ty := count_alerts ty (alerts s) in
    forall (hours : Z) (r : Report),
      generate_diabetes_report hours (glucose_measurements s) s = Ok (FullReport r) ->
      hypo_episodes r = n "hypoglycemia"%string /\
      (hypoglycemia th <= severe_hyperglycemia th ->
       severe_hyper_episodes r = n "severe_hyperglycemia"%string) /\
      (hypoglycemia th <= hyperglycemia th -> hyperglycemia th <= severe_hyperglycemia th ->
       hyper_episodes r = (n "hyperglycemia"%string + n "severe_hyperglycemia"%string)%nat).
Proof.
  intros name dtype c es Hes s th n hours r Hr.
  assert (Hfresh : counts_agree (new_monitor name dtype c)).
  { unfold counts_agree. cbn. auto. }
  pose proof (counts_agree_run es _ Hes Hfresh) as (A & B & C). fold s in A, B, C.
  assert (Hth : thresholds_of s = th).
  { unfold thresholds_of, s. rewrite run_config. reflexivity. }
  rewrite Hth in A, B, C.
  unfold generate_diabetes_report in Hr.
  destruct (glucose_measurements s) as [|row df] eqn:Edf; [discriminate|].
  destruct (predict_glucose_trend default_hours s); [|discriminate].
  injection Hr as <-. cbn [hypo_episodes hyper_episodes severe_hyper_episodes].
  rewrite Hth. subst n. cbn beta.
  split; [symmetry; exact A|]. split.
  - intro H. symmetry. apply B. exact H.
  - intros H1 H2. symmetry. apply C; assumption.
Qed.

(** The theorem on a fresh monitor under the default thresholds after a
    reading of 60.0 and a reading of 150.0: the report counts one
    hypoglycemia episode, and the table holds one hypoglycemia alert. *)
Lemma alerts_match_report_counts_witness :
  let s := run (new_monitor "Marie Dupont" 1 default_config)
               [Measure 0 0 (-1.25) "random"; Measure 1 1 (-0.125) "random"] in
  exists r : Report,
    generate_diabetes_report 24 (glucose_measurements s) s = Ok (FullReport r) /\
    hypo_episodes r = count_alerts "hypoglycemia" (alerts s).
Proof.
  intro s.
  assert (Hes : forallb is_logged
                  [Measure 0 0 (-1.25) "random"; Measure 1 1 (-0.125) "random"] = true)
    by reflexivity.
  eexists. split; [vm_compute; reflexivity|].
  refine (proj1 (alerts_match_report_counts "Marie Dupont" 1 default_config _ Hes 24 _ _)).
  vm_compute. reflexivity.
Defined.

(** ** More on the forecast *)

Lemma slice_from_suffix {A : Type} (w : Z) (older window : list A) :
  (0 < w)%Z -> Z.of_nat (length window) = w ->
  slice_from (- w) (older ++ window) = window.
Proof.
  intros Hw Hlen. unfold slice_from.
  replace (- w <? 0)%Z with true by (symmetry; apply Z.ltb_lt; lia).
  rewrite length_app. rewrite Z.max_r by lia.
  replace (Z.to_nat (Z.of_nat (length older + length window) + - w)) with (length older)
    by lia.
  rewrite skipn_app, skipn_all, Nat.sub_diag. reflexivity.
Qed.

Lemma forecast_of_suffix (hours : Z) (s1 s2 : Monitor) (older1 older2 window : list Q) :
  config s1 = config s2 ->
  (0 < window_size (prediction_settings (config s1)))%Z ->
  Z.of_nat (length window) = window_size (prediction_settings (config s1)) ->
  data_blood_glucose s1 = older1 ++ window ->
  data_blood_glucose s2 = older2 ++ window ->
  glucose_window s1 = window /\
  forecast_predictions hours s1 = forecast_predictions hours s2 /\
  predict_glucose_trend hours s1 = predict_glucose_trend hours s2.
Proof.
  intros Hc Hw Hlen H1 H2.
  assert (W1 : glucose_window s1 = window).
  { unfold glucose_window. rewrite H1. apply slice_from_suffix; assumption. }
  assert (W2 : glucose_window s2 = window).
  { unfold glucose_window. rewrite H2, <- Hc. apply slice_from_suffix; assumption. }
  assert (P : forecast_predictions hours s1 = forecast_predictions hours s2).
  { unfold forecast_predictions. rewrite W1, W2. reflexivity. }
  split; [exact W1|]. split; [exact P|].
  unfold predict_glucose_trend, thresholds_of. rewrite P, <- Hc, H1, H2, !length_app.
  replace (Z.of_nat (length older1 + length window)
           <? window_size (prediction_settings (config s1)))%Z with false
    by (symmetry; apply Z.ltb_ge; lia).
  replace (Z.of_nat (length older2 + length window)
           <? window_size (prediction_settings (config s1)))%Z with false
    by (symmetry; apply Z.ltb_ge; lia).
  reflexivity.
Qed.

(** X8. The forecast depends on the history only through its last
    [window_size] readings: two monitors with the same configuration whose
    histories end with the same [window_size] readings get the same
    predictions and the same forecast, whatever came before. *)
Theorem forecast_depends_on_last_window :
  forall (hours : Z) (s1 s2 : Monitor) (older1 older2 window : list Q),
    config s1 = config s2 ->
    (0 < window_size (prediction_settings (config s1)))%Z ->
    Z.of_nat (length window) = window_size (prediction_settings (config s1)) ->
    data_blood_glucose s1 = older1 ++ window ->
    data_blood_glucose s2 = older2 ++ window ->
    glucose_window s1 = window /\
    forecast_predictions hours s1 = forecast_predictions hours s2 /\
    predict_glucose_trend hours s1 = predict_glucose_trend hours s2.
Proof.
  intros hours s1 s2 older1 older2 window Hc Hw Hlen H1 H2.
  exact (forecast_of_suffix hours s1 s2 older1 older2 window Hc Hw Hlen H1 H2).
Qed.

(** The theorem on two monitors under the default configuration: one logged a
    reading of 400 and then ten of 100, the other only the ten of 100. *)
Lemma forecast_depends_on_last_window_witness :
  let s1 := run (new_monitor "Marie Dupont" 1 default_config)
                (Measure 0 0 10 "random" :: repeat (Measure 1 1 (-0.75) "random") 10) in
  let s2 := run (new_monitor "Marie Dupont" 1 default_config)
                (repeat (Measure 1 1 (-0.75) "random") 10) in
  predict_glucose_trend 4 s1 = predict_glucose_trend 4 s2.
Proof.
  intros s1 s2.
  assert (Hc : config s1 = config s2) by (vm_compute; reflexivity).
  assert (Hw : (0 < window_size (prediction_settings (config s1)))%Z)
    by (vm_compute; reflexivity).
  assert (Hlen : Z.of_nat (length (repeat (1000 # 10) 10))
                 = window_size (prediction_settings (config s1)))
    by (vm_compute; reflexivity).
  assert (H1 : data_blood_glucose s1 = [4000 # 10] ++ repeat (1000 # 10) 10)
    by (vm_compute; reflexivity).
  assert (H2 : data_blood_glucose s2 = [] ++ repeat (1000 # 10) 10)
    by (vm_compute; reflexivity).
  exact (proj2 (proj2 (forecast_depends_on_last_window 4 s1 s2 _ _ _ Hc Hw Hlen H1 H2))).
Defined.

Lemma Qltb_comp (x x' t : Q) : x == x' -> Qltb x t = Qltb x' t.
Proof. intro H. unfold Qltb. rewrite H. reflexivity. Qed.

Lemma Qgtb_comp (x x' t : Q) : x == x' -> Qgtb x t = Qgtb x' t.
Proof. intro H. unfold Qgtb, Qltb. rewrite H. reflexivity. Qed.

Lemma forecast_alerts_nil (th : AlertThresholds) (preds : list Q) :
  forall i,
    forecast_alerts th i preds = [] <->
    Forall (fun p => hypoglycemia th <= p /\ p <= severe_hyperglycemia th) preds.
Proof.
  induction preds as [|p preds IH]; intro i; cbn [forecast_alerts].
  - split; auto.
  - destruct (Qltb p (hypoglycemia th)) eqn:E1;
      [|destruct (Qgtb p (severe_hyperglycemia th)) eqn:E2]; reflect_cmp.
    + split; [discriminate|]. intro H. inversion H; subst. exfalso. lra.
    + split; [discriminate|]. intro H. inversion H; subst. exfalso. lra.
    + cbn [app]. rewrite IH. split.
      * intro H. constructor; [split; assumption|exact H].
      * intro H. inversion H; assumption.
Qed.

Lemma no_anomaly_iff (hours : Z) (s : Monitor) (preds : list Q) :
  (window_size (prediction_settings (config s))
   <= Z.of_nat (length (data_blood_glucose s)))%Z ->
  forecast_predictions hours s = Ok preds ->
  (predict_glucose_trend hours s = Ok NoAnomaly <->
   Forall (fun p => hypoglycemia (thresholds_of s) <= p
                    /\ p <= severe_hyperglycemia (thresholds_of s)) preds).
Proof.
  intros Hlen Hp. unfold predict_glucose_trend.
  replace (Z.of_nat (length (data_blood_glucose s))
           <? window_size (prediction_settings (config s)))%Z with false
    by (symmetry; apply Z.ltb_ge; lia).
  rewrite Hp, <- (forecast_alerts_nil (thresholds_of s) preds 0).
  destruct (forecast_alerts (thresholds_of s) 0 preds); split; intro H;
    try reflexivity; try discriminate.
Qed.

(** X9. When the history fills the window, the forecast is the no-anomaly
    text exactly when every predicted value lies between the hypoglycemia
    threshold and the severe hyperglycemia threshold, bounds included; the
    hyperglycemia threshold plays no part in the forecast. *)
Theorem forecast_no_anomaly_iff_in_range :
  forall (hours : Z) (s : Monitor) (preds : list Q),
    (window_size (prediction_settings (config s))
     <= Z.of_nat (length (data_blood_glucose s)))%Z ->
    forecast_predictions hours s = Ok preds ->
    (predict_glucose_trend hours s = Ok NoAnomaly <->
     Forall (fun p => hypoglycemia (thresholds_of s) <= p
                      /\ p <= severe_hyperglycemia (thresholds_of s)) preds).
Proof.
  intros hours s preds Hlen Hp. exact (no_anomaly_iff hours s preds Hlen Hp).
Qed.

(** The theorem on a monitor that logged ten readings of 100 under the
    default configuration. *)
Lemma forecast_no_anomaly_iff_in_range_witness :
  let s := run (new_monitor "Marie Dupont" 1 default_config)
               (repeat (Measure 1 1 (-0.75) "random") 10) in
  predict_glucose_trend 4 s = Ok NoAnomaly.
Proof.
  intro s.
  assert (Hlen : (window_size (prediction_settings (config s))
                  <= Z.of_nat (length (data_blood_glucose s)))%Z)
    by (vm_compute; discriminate).
  destruct (forecast_predictions 4 s) as [preds|e] eqn:Hp; [|vm_compute in Hp; discriminate].
  apply (proj2 (forecast_no_anomaly_iff_in_range 4 s preds Hlen Hp)).
  vm_compute in Hp. injection Hp as <-.
  repeat constructor; vm_compute; discriminate.
Defined.













Lemma skipn_min {A : Type} (n : nat) (l : list A) :
  skipn (Nat.min n (length l)) l = skipn n l.
Proof.
  destruct (Nat.le_ge_cases n (length l)) as [H|H].
  - rewrite Nat.min_l by exact H. reflexivity.
  - rewrite Nat.min_r by exact H. rewrite !skipn_all2 by lia. reflexivity.
Qed.

Lemma slice_from_nonneg {A : Type} (start : Z) (l : list A) :
  (0 <= start)%Z -> slice_from start l = skipn (Z.to_nat start) l.
Proof.
  intro H. unfold slice_from.
  replace (start <? 0)%Z with false by (symmetry; apply Z.ltb_ge; exact H).
  rewrite <- (skipn_min (Z.to_nat start) l). f_equal. lia.
Qed.

Lemma window_without_size (hours : Z) (s : Monitor) :
  let ws := window_size (prediction_settings (config s)) in
  (ws <= 0)%Z ->
  glucose_window s = skipn (Z.to_nat (- ws)) (data_blood_glucose s) /\
  (ws = 0%Z ->
   glucose_window s = data_blood_glucose s /\
   forecast_predictions hours s = spec_forecast_predictions hours (data_blood_glucose s)) /\
  predict_glucose_trend hours s <> Ok InsufficientData.
Proof.
  intros ws Hws.
  assert (W : glucose_window s = skipn (Z.to_nat (- ws)) (data_blood_glucose s)).
  { unfold glucose_window. fold ws. apply slice_from_nonneg. lia. }
  split; [exact W|]. split.
  - intro E. rewrite E in W. cbn [Z.opp Z.to_nat skipn] in W.
    split; [exact W|]. unfold forecast_predictions, spec_forecast_predictions.
    rewrite W. reflexivity.
  - unfold predict_glucose_trend. fold ws.
    replace (Z.of_nat (length (data_blood_glucose s)) <? ws)%Z with false
      by (symmetry; apply Z.ltb_ge; lia).
    destruct (forecast_predictions hours s) as [p|e]; [|discriminate].
    destruct (forecast_alerts (thresholds_of s) 0 p); discriminate.
Qed.

(** X12. A [window_size] of zero or less does not give an empty window: the
    slice then drops the first [- window_size] readings and keeps the rest, so
    with 0 the line is fitted to the whole history; and the forecast never
    answers with the insufficient-data text. *)
Theorem window_size_zero_or_negative :
  forall (hours : Z) (s : Monitor),
    let ws := window_size (prediction_settings (config s)) in
    (ws <= 0)%Z ->
    glucose_window s = skipn (Z.to_nat (- ws)) (data_blood_glucose s) /\
    (ws = 0%Z ->
     glucose_window s = data_blood_glucose s /\
     forecast_predictions hours s = spec_forecast_predictions hours (data_blood_glucose s)) /\
    predict_glucose_trend hours s <> Ok InsufficientData.
Proof.
  intros hours s ws Hws. exact (window_without_size hours s Hws).
Qed.

(** The theorem on a monitor configured with a window of 0 after three
    readings: the window is the whole history. *)
Lemma window_size_zero_or_negative_witness :
  let s := run (new_monitor "Marie Dupont" 1 (with_window_size 0 default_config))
               (repeat (Measure 1 1 (-0.75) "random") 3) in
  glucose_window s = data_blood_glucose s.
Proof.
  intro s.
  assert (Hws : (window_size (prediction_settings (config s)) <= 0)%Z)
    by (vm_compute; discriminate).
  exact (proj1 (proj1 (proj2 (window_size_zero_or_negative 4 s Hws)) eq_refl)).
Defined.

(** ** Report statistics *)

Lemma fold_min_spec (rest : list Q) :
  forall x : Q,
    let r := fold_left (fun m v => if Qltb v m then v else m) rest x in
    r <= x /\ Forall (fun v => r <= v) rest /\ (r = x \/ In r rest).
Proof.
  induction rest as [|v rest IH]; intro x; cbn [fold_left].
  - split; [lra|]. split; [constructor|]. left. reflexivity.
  - destruct (IH (if Qltb v x then v else x)) as (H1 & H2 & H3).
    destruct (Qltb v x) eqn:E; reflect_cmp.
    + split; [lra|]. split; [constructor; assumption|].
      destruct H3 as [->|H3]; right; [left; reflexivity|right; exact H3].
    + split; [exact H1|]. split; [constructor; [lra|exact H2]|].
      destruct H3 as [H3|H3]; [left; exact H3|right; right; exact H3].
Qed.

Lemma fold_max_spec (rest : list Q) :
  forall x : Q,
    let r := fold_left (fun m v => if Qgtb v m then v else m) rest x in
    x <= r /\ Forall (fun v => v <= r) rest /\ (r = x \/ In r rest).
Proof.
  induction rest as [|v rest IH]; intro x; cbn [fold_left].
  - split; [lra|]. split; [constructor|]. left. reflexivity.
  - destruct (IH (if Qgtb v x then v else x)) as (H1 & H2 & H3).
    destruct (Qgtb v x) eqn:E; reflect_cmp.
    + split; [lra|]. split; [constructor; assumption|].
      destruct H3 as [->|H3]; right; [left; reflexivity|right; exact H3].
    + split; [exact H1|]. split; [constructor; [lra|exact H2]|].
      destruct H3 as [H3|H3]; [left; exact H3|right; right; exact H3].
Qed.

Lemma series_min_spec (l : list Q) :
  l <> [] -> Forall (fun v => series_min l <= v) l /\ In (series_min l) l.
Proof.
  destruct l as [|x rest]; [congruence|]. intros _. unfold series_min.
  destruct (fold_min_spec rest x) as (H1 & H2 & H3). cbn zeta in *.
  split; [constructor; assumption|].
  destruct H3 as [->|H3]; [left; reflexivity|right; exact H3].
Qed.

Lemma series_max_spec (l : list Q) :
  l <> [] -> Forall (fun v => v <= series_max l) l /\ In (series_max l) l.
Proof.
  destruct l as [|x rest]; [congruence|]. intros _. unfold series_max.
  destruct (fold_max_spec rest x) as (H1 & H2 & H3). cbn zeta in *.
  split; [constructor; assumption|].
  destruct H3 as [->|H3]; [left; reflexivity|right; exact H3].
Qed.

Lemma sumQ_bounds (lo hi : Q) (l : list Q) :
  Forall (fun v => lo <= v /\ v <= hi) l ->
  lo * lenQ l <= sumQ l /\ sumQ l <= hi * lenQ l.
Proof.
  induction 1 as [|v l [Hlo Hhi] _ [IH1 IH2]].
  - change (lo * 0 <= 0 /\ 0 <= hi * 0). split; lra.
  - rewrite sumQ_cons, lenQ_cons. split; lra.
Qed.

Lemma mean_bounds (lo hi : Q) (l : list Q) :
  l <> [] ->
  Forall (fun v => lo <= v /\ v <= hi) l ->
  lo <= mean l /\ mean l <= hi.
Proof.
  intros Hne Hall. destruct (sumQ_bounds lo hi l Hall) as [H1 H2].
  assert (Hn : 0 < lenQ l) by (destruct l; [congruence|apply lenQ_pos]).
  unfold mean. fold (lenQ l). split.
  - apply Qle_shift_div_l; assumption.
  - apply Qle_shift_div_r; assumption.
Qed.

Lemma report_fields (hours : Z) (df : list GlucoseRow) (s : Monitor) (r : Report) :
  generate_diabetes_report hours df s = Ok (FullReport r) ->
  df <> [] /\
  mean_glucose r = mean (map gm_blood_glucose df) /\
  min_glucose r = series_min (map gm_blood_glucose df) /\
  max_glucose r = series_max (map gm_blood_glucose df) /\
  hypo_episodes r = count_below (hypoglycemia (thresholds_of s)) df /\
  hyper_episodes r = count_above (hyperglycemia (thresholds_of s)) df /\
  severe_hyper_episodes r = count_above (severe_hyperglycemia (thresholds_of s)) df.
Proof.
  intro Hr. unfold generate_diabetes_report in Hr.
  destruct df as [|row df]; [discriminate|].
  destruct (predict_glucose_trend default_hours s); [|discriminate].
  injection Hr as <-. repeat split. discriminate.
Qed.

Lemma report_min_mean_max (hours : Z) (df : list GlucoseRow) (s : Monitor) (r : Report) :
  generate_diabetes_report hours df s = Ok (FullReport r) ->
  Forall (fun row => min_glucose r <= gm_blood_glucose row
                     /\ gm_blood_glucose row <= max_glucose r) df /\
  In (min_glucose r) (map gm_blood_glucose df) /\
  In (max_glucose r) (map gm_blood_glucose df) /\
  min_glucose r <= mean_glucose r /\ mean_glucose r <= max_glucose r.
Proof.
  intro Hr. destruct (report_fields hours df s r Hr) as (Hne & -> & -> & -> & _).
  assert (Hne' : map gm_blood_glucose df <> []) by (destruct df; [congruence|discriminate]).
  destruct (series_min_spec _ Hne') as [Hmin Hmin_in].
  destruct (series_max_spec _ Hne') as [Hmax Hmax_in].
  assert (Hall : Forall (fun v => series_min (map gm_blood_glucose df) <= v
                                  /\ v <= series_max (map gm_blood_glucose df))
                   (map gm_blood_glucose df)).
  { rewrite Forall_forall in *. intros v Hv. split; [apply Hmin|apply Hmax]; exact Hv. }
  split; [|split; [exact Hmin_in|split; [exact Hmax_in|]]].
  - rewrite Forall_map in Hall. exact Hall.
  - apply mean_bounds; assumption.
Qed.

(** X13. In every report, the minimum and the maximum are readings of the
    period, every reading of the period lies between them, and so does the
    mean. *)
Theorem report_statistics_bounds :
  forall (hours : Z) (df : list GlucoseRow) (s : Monitor) (r : Report),
    generate_diabetes_report hours df s = Ok (FullReport r) ->
    Forall (fun row => min_glucose r <= gm_blood_glucose row
                       /\ gm_blood_glucose row <= max_glucose r) df /\
    In (min_glucose r) (map gm_blood_glucose df) /\
    In (max_glucose r) (map gm_blood_glucose df) /\
    min_glucose r <= mean_glucose r /\ mean_glucose r <= max_glucose r.
Proof.
  intros hours df s r Hr. exact (report_min_mean_max hours df s r Hr).
Qed.

(** The theorem on the report of a fresh default monitor after the readings
    60.0 and 150.0. *)
Lemma report_statistics_bounds_witness :
  let s := run (new_monitor "Marie Dupont" 1 default_config)
               [Measure 0 0 (-1.25) "random"; Measure 1 1 (-0.125) "random"] in
  exists r : Report,
    generate_diabetes_report 24 (glucose_measurements s) s = Ok (FullReport r) /\
    min_glucose r <= mean_glucose r /\ mean_glucose r <= max_glucose r.
Proof.
  intro s. eexists. split; [vm_compute; reflexivity|].
  refine (proj2 (proj2 (proj2 (report_statistics_bounds 24 (glucose_measurements s) s _ _)))).
  vm_compute. reflexivity.
Defined.

Lemma filter_length_zero {A : Type} (f : A -> bool) (l : list A) :
  length (filter f l) = 0%nat <-> Forall (fun x => f x = false) l.
Proof.
  induction l as [|x l IH]; cbn [filter].
  - split; auto.
  - destruct (f x) eqn:E; cbn [length].
    + split; [lia|]. intro H. inversion H; congruence.
    + rewrite IH. split; intro H; [constructor; assumption|inversion H; assumption].
Qed.

Lemma filter_disjoint_length {A : Type} (f g : A -> bool) (l : list A) :
  (forall x, f x = true -> g x = false) ->
  (length (filter f l) + length (filter g l) <= length l)%nat.
Proof.
  intro Hd. induction l as [|x l IH]; cbn [filter length]; [lia|].
  destruct (f x) eqn:Ef.
  - rewrite (Hd x Ef). cbn [length]. lia.
  - destruct (g x); cbn [length]; lia.
Qed.

Lemma report_counts_and_extremes (hours : Z) (df : list GlucoseRow) (s : Monitor)
  (r : Report) :
  generate_diabetes_report hours df s = Ok (FullReport r) ->
  let th := thresholds_of s in
  (hypo_episodes r = 0%nat <-> hypoglycemia th <= min_glucose r) /\
  (hyper_episodes r = 0%nat <-> max_glucose r <= hyperglycemia th) /\
  (severe_hyper_episodes r = 0%nat <-> max_glucose r <= severe_hyperglycemia th) /\
  (hypoglycemia th <= hyperglycemia th ->
   (hypo_episodes r + hyper_episodes r <= length df)%nat).
Proof.
  intros Hr th.
  destruct (report_min_mean_max hours df s r Hr) as (Hall & Hmin & Hmax & _).
  destruct (report_fields hours df s r Hr) as (_ & _ & _ & _ & -> & -> & ->).
  fold th. rewrite Forall_forall in Hall.
  apply in_map_iff in Hmin. destruct Hmin as (rmin & Emin & Hrmin).
  apply in_map_iff in Hmax. destruct Hmax as (rmax & Emax & Hrmax).
  assert (Habove : forall t, count_above t df = 0%nat <-> max_glucose r <= t).
  { intro t. unfold count_above. rewrite filter_length_zero, Forall_forall. split.
    - intro H. specialize (H rmax Hrmax). cbn in H. reflect_cmp. rewrite <- Emax. exact H.
    - intros H row Hrow. apply Qgtb_le. destruct (Hall row Hrow). lra. }
  split; [|split; [apply Habove|split; [apply Habove|]]].
  - unfold count_below. rewrite filter_length_zero, Forall_forall. split.
    + intro H. specialize (H rmin Hrmin). cbn in H. reflect_cmp. rewrite <- Emin. exact H.
    + intros H row Hrow. apply Qltb_ge. destruct (Hall row Hrow). lra.
  - intro Hle. unfold count_below, count_above. apply filter_disjoint_length.
    intros row H. reflect_cmp. apply Qgtb_le. lra.
Qed.

(** X14. In every report, the hypoglycemia count is zero exactly when the
    minimum is not below the hypoglycemia threshold, and the hyperglycemia
    and severe counts are zero exactly when the maximum is not above their
    thresholds; when the hypoglycemia threshold is at most the hyperglycemia
    one, no reading is counted both as hypoglycemia and as hyperglycemia. *)
Theorem report_counts_follow_extremes :
  forall (hours : Z) (df : list GlucoseRow) (s : Monitor) (r : Report),
    generate_diabetes_report hours df s = Ok (FullReport r) ->
    let th := thresholds_of s in
    (hypo_episodes r = 0%nat <-> hypoglycemia th <= min_glucose r) /\
    (hyper_episodes r = 0%nat <-> max_glucose r <= hyperglycemia th) /\
    (severe_hyper_episodes r = 0%nat <-> max_glucose r <= severe_hyperglycemia th) /\
    (hypoglycemia th <= hyperglycemia th ->
     (hypo_episodes r + hyper_episodes r <= length df)%nat).
Proof.
  intros hours df s r Hr. exact (report_counts_and_extremes hours df s r Hr).
Qed.

(** The theorem on the report of a fresh default monitor after the readings
    60.0 and 150.0: no reading is above 180, so the hyperglycemia count is
    0. *)
Lemma report_counts_follow_extremes_witness :
  let s := run (new_monitor "Marie Dupont" 1 default_config)
               [Measure 0 0 (-1.25) "random"; Measure 1 1 (-0.125) "random"] in
  exists r : Report,
    generate_diabetes_report 24 (glucose_measurements s) s = Ok (FullReport r) /\
    hyper_episodes r = 0%nat.
Proof.
  intro s. eexists. split; [vm_compute; reflexivity|].
  refine (proj2 (proj1 (proj2 (report_counts_follow_extremes 24 (glucose_measurements s)
                                 s _ _))) _).
  - vm_compute. reflexivity.
  - vm_compute. discriminate.
Defined.

(** ** Meals and insulin *)


